(** * bitwarden_to_google.py: Bitwarden export to Google Passwords CSV

    A shallow embedding of the converter and the proofs of its specified
    behaviour.  The file has these layers:

    - [Py]: the fragment of Python the script relies on (dynamically typed
      values, exceptions, the [str] methods it calls);
    - [Csv]: the Python-level part of the [csv] module ([DictReader],
      [DictWriter] and the record serialiser of the default dialect);
    - [Urllib] and [Posix]: [urlparse(...).netloc] and the [pathlib]
      properties the script reads, which the model of the script takes as
      parameters;
    - input and output: what the file system answers, and the trace of
      effects of a run;
    - the script itself: [PasswordEntry], [format_uri], [to_google_format],
      [from_csv], [from_json], [to_google_csv] and [main];
    - the properties, and the model run on sample data.

    A Python [str] is a [string] whose characters are code points below 256;
    floating point numbers are not part of the value model. *)

From Stdlib Require Import String Ascii List ZArith Lia Bool DecimalString.
From Stdlib Require DecimalZ DecimalPos.
Import ListNotations.
Local Open Scope list_scope.
Local Open Scope string_scope.

(* ================================================================== *)
(** * The Python fragment *)
(* ================================================================== *)

Module Py.

(** Exceptions the script can meet.  [ValueError] carries its message. *)
Inductive exception : Type :=
| AttributeError
| KeyError
| TypeError
| IndexError
| ValueError (msg : string)
| OSError
| CsvError
| JSONDecodeError.

(** The outcome of evaluating an expression: a value or a raised exception. *)
Inductive result (A : Type) : Type :=
| Ok (a : A)
| Raise (e : exception).

Arguments Ok {A} a.
Arguments Raise {A} e.

Definition bind {A B : Type} (c : result A) (k : A -> result B) : result B :=
  match c with
  | Ok a => k a
  | Raise e => Raise e
  end.

(** Values as [json.load] and [csv.DictReader] hand them to the script. *)
#[warnings="-register-all"]
Inductive value : Type :=
| PyNone
| PyBool (b : bool)
| PyInt (n : Z)
| PyStr (s : string)
| PyList (items : list value)
| PyDict (entries : list (string * value)).

(** Truth value testing ([if x], [not x]). *)
Definition truthy (v : value) : bool :=
  match v with
  | PyNone => false
  | PyBool b => b
  | PyInt n => negb (n =? 0)%Z
  | PyStr s => negb (s =? "")
  | PyList l => match l with [] => false | _ :: _ => true end
  | PyDict d => match d with [] => false | _ :: _ => true end
  end.

(** [v == n] for an integer literal [n]: [True == 1] and [False == 0] hold. *)
Definition eq_int (v : value) (n : Z) : bool :=
  match v with
  | PyInt m => (m =? n)%Z
  | PyBool b => ((if b then 1 else 0) =? n)%Z
  | _ => false
  end.

(** ** Characters *)

Definition code (c : ascii) : nat := nat_of_ascii c.

Definition between (lo hi n : nat) : bool := ((lo <=? n) && (n <=? hi))%nat.

(** [str.isspace] on one character. *)
Definition isspace (c : ascii) : bool :=
  let n := code c in
  between 9 13 n || between 28 32 n || (n =? 133)%nat || (n =? 160)%nat.

(** [str.isprintable] on one character. *)
Definition isprintable (c : ascii) : bool :=
  let n := code c in
  negb ((n <? 32)%nat || between 127 160 n || (n =? 173)%nat).

(** [str.lower] on one character. *)
Definition lower_char (c : ascii) : ascii :=
  let n := code c in
  if between 65 90 n || (between 192 222 n && negb (n =? 215)%nat)
  then ascii_of_nat (n + 32) else c.

Definition quote : ascii := "034".
Definition apostrophe : ascii := "039".
Definition backslash : ascii := "092".
Definition TAB : ascii := "009".
Definition LF : ascii := "010".
Definition CR : ascii := "013".

(** ** [str] methods *)

(** [s.startswith(p)] *)
Fixpoint startswith (s p : string) {struct p} : bool :=
  match p with
  | EmptyString => true
  | String a p' =>
      match s with
      | EmptyString => false
      | String b s' => Ascii.eqb a b && startswith s' p'
      end
  end.

(** [sub in s] *)
Fixpoint contains (sub s : string) : bool :=
  startswith s sub ||
  match s with
  | EmptyString => false
  | String _ s' => contains sub s'
  end.

(** [s.split(sep)] for a one-character separator. *)
Fixpoint split (sep : ascii) (s : string) : list string :=
  match s with
  | EmptyString => [EmptyString]
  | String c s' =>
      if Ascii.eqb c sep then EmptyString :: split sep s'
      else match split sep s' with
           | [] => [String c EmptyString]
           | w :: ws => String c w :: ws
           end
  end.

Fixpoint lstrip (s : string) : string :=
  match s with
  | EmptyString => EmptyString
  | String c s' => if isspace c then lstrip s' else s
  end.

Fixpoint rstrip (s : string) : string :=
  match s with
  | EmptyString => EmptyString
  | String c s' =>
      match rstrip s' with
      | EmptyString => if isspace c then EmptyString else String c EmptyString
      | r => String c r
      end
  end.

(** [s.strip()] *)
Definition strip (s : string) : string := rstrip (lstrip s).

(** [s.replace(old, new)] for a non-empty [old]: occurrences are found left to
    right and do not overlap; [skip] counts the characters of the occurrence
    being replaced that are still to be dropped. *)
Fixpoint replace_from (old new : string) (skip : nat) (s : string) : string :=
  match s with
  | EmptyString => EmptyString
  | String c s' =>
      match skip with
      | S k => replace_from old new k s'
      | O =>
          if startswith s old
          then new ++ replace_from old new (String.length old - 1) s'
          else String c (replace_from old new 0 s')
      end
  end.

(** With an empty [old], Python puts [new] before every character and at the
    end. *)
Fixpoint intersperse (new s : string) : string :=
  match s with
  | EmptyString => new
  | String c s' => new ++ String c (intersperse new s')
  end.

Definition replace (s old new : string) : string :=
  match old with
  | EmptyString => intersperse new s
  | String _ _ => replace_from old new 0 s
  end.

(** [s.lower()] *)
Fixpoint lower (s : string) : string :=
  match s with
  | EmptyString => EmptyString
  | String c s' => String (lower_char c) (lower s')
  end.

(** [sep.join(l)] *)
Fixpoint join (sep : string) (l : list string) : string :=
  match l with
  | [] => EmptyString
  | [x] => x
  | x :: rest => x ++ sep ++ join sep rest
  end.

(** ** [str()] and [repr()] *)

Definition str_of_int (n : Z) : string := NilZero.string_of_int (Z.to_int n).

Definition hex_digit (n : nat) : ascii :=
  if (n <? 10)%nat then ascii_of_nat (48 + n) else ascii_of_nat (87 + n).

(** One character inside [repr] of a string delimited by [q]. *)
Definition repr_char (q c : ascii) : string :=
  if Ascii.eqb c q || Ascii.eqb c backslash then String backslash (String c "")
  else if Ascii.eqb c TAB then "\t"
  else if Ascii.eqb c LF then "\n"
  else if Ascii.eqb c CR then "\r"
  else if isprintable c then String c ""
  else "\x" ++ String (hex_digit (code c / 16)) (String (hex_digit (code c mod 16)) "").

Fixpoint repr_chars (q : ascii) (s : string) : string :=
  match s with
  | EmptyString => EmptyString
  | String c s' => repr_char q c ++ repr_chars q s'
  end.

(** [repr(s)]: apostrophes delimit the text unless it holds an apostrophe and
    no double quote. *)
Definition repr_str (s : string) : string :=
  let q := if contains (String apostrophe "") s && negb (contains (String quote "") s)
           then quote else apostrophe in
  String q (repr_chars q s ++ String q "").

Fixpoint repr (v : value) : string :=
  match v with
  | PyNone => "None"
  | PyBool true => "True"
  | PyBool false => "False"
  | PyInt n => str_of_int n
  | PyStr s => repr_str s
  | PyList l => "[" ++ join ", " (map repr l) ++ "]"
  | PyDict d => "{" ++ join ", " (map (fun kv => repr_str (fst kv) ++ ": " ++ repr (snd kv)) d) ++ "}"
  end.

(** [str(v)], which is also what a replacement field of an f-string gives. *)
Definition str (v : value) : string :=
  match v with
  | PyStr s => s
  | _ => repr v
  end.

(** ** Dictionaries, subscripts and iteration *)

(** A [dict] with string keys is the list of its items in insertion order,
    each key once. *)
Fixpoint lookup (k : string) (d : list (string * value)) : option value :=
  match d with
  | [] => None
  | (k', v) :: d' => if k' =? k then Some v else lookup k d'
  end.

(** [d[k] = v] *)
Fixpoint set_item (d : list (string * value)) (k : string) (v : value)
  : list (string * value) :=
  match d with
  | [] => [(k, v)]
  | (k', v') :: d' => if k' =? k then (k, v) :: d' else (k', v') :: set_item d' k v
  end.

(** [d.get(k, default)] on a [dict]. *)
Definition dict_get (d : list (string * value)) (k : string) (default : value)
  : value :=
  match lookup k d with
  | Some v => v
  | None => default
  end.

(** [o.get(k, default)]: only a [dict] has the method. *)
Definition get (o : value) (k : string) (default : value) : result value :=
  match o with
  | PyDict d => Ok (dict_get d k default)
  | _ => Raise AttributeError
  end.

(** [o[k]] for a string [k]. *)
Definition getitem (o : value) (k : string) : result value :=
  match o with
  | PyDict d => match lookup k d with Some v => Ok v | None => Raise KeyError end
  | _ => Raise TypeError
  end.

(** [o[0]] *)
Definition getitem0 (o : value) : result value :=
  match o with
  | PyList (x :: _) => Ok x
  | PyList [] => Raise IndexError
  | PyStr (String c _) => Ok (PyStr (String c ""))
  | PyStr EmptyString => Raise IndexError
  | PyDict _ => Raise KeyError
  | _ => Raise TypeError
  end.

Fixpoint chars (s : string) : list value :=
  match s with
  | EmptyString => []
  | String c s' => PyStr (String c "") :: chars s'
  end.

(** The elements [for x in o] runs over. *)
Definition iter (o : value) : result (list value) :=
  match o with
  | PyList l => Ok l
  | PyDict d => Ok (map (fun kv => PyStr (fst kv)) d)
  | PyStr s => Ok (chars s)
  | _ => Raise TypeError
  end.

End Py.

Import Py.

Notation "x <- c ;; k" := (Py.bind c (fun x => k))
  (at level 61, c at next level, right associativity).

(* ================================================================== *)
(** * The [csv] module *)
(* ================================================================== *)

Module Csv.

(** ** [csv.DictReader]

    [csv.reader] turns the text of a file into records, each a list of
    fields; [DictReader] takes the first record as the field names and makes
    a [dict] of every later record that is not empty.  A field name without a
    field gets [None] (the [restval]); fields beyond the names go under the
    key [None], which no string key reads, and are left out. *)

Definition zip_dict (fieldnames row : list string) : list (string * value) :=
  fold_left (fun d kv => set_item d (fst kv) (PyStr (snd kv)))
            (combine fieldnames row) [].

Definition row_dict (fieldnames row : list string) : list (string * value) :=
  fold_left (fun d key => set_item d key PyNone)
            (skipn (List.length row) fieldnames)
            (zip_dict fieldnames row).

Definition is_blank (row : list string) : bool :=
  match row with
  | [] => true
  | _ :: _ => false
  end.

Definition DictReader (records : list (list string))
  : list (list (string * value)) :=
  match records with
  | [] => []
  | fieldnames :: rows =>
      map (row_dict fieldnames) (filter (fun row => negb (is_blank row)) rows)
  end.

(** ** [csv.writer], dialect [excel]

    Delimiter comma, quote character the double quote, doubled inside a
    quoted field, [QUOTE_MINIMAL], and the line terminator CR LF. *)

Definition lineterminator : string := String CR (String LF "").

Definition special (c : ascii) : bool :=
  Ascii.eqb c "," || Ascii.eqb c quote || Ascii.eqb c CR || Ascii.eqb c LF.

Fixpoint needs_quotes (field : string) : bool :=
  match field with
  | EmptyString => false
  | String c rest => special c || needs_quotes rest
  end.

Fixpoint double_quotes (field : string) : string :=
  match field with
  | EmptyString => EmptyString
  | String c rest =>
      if Ascii.eqb c quote then String quote (String quote (double_quotes rest))
      else String c (double_quotes rest)
  end.

Definition write_field (field : string) : string :=
  if needs_quotes field
  then String quote (double_quotes field ++ String quote "")
  else field.

(** The text of a field: [None] is written as the empty string, a [str] as it
    is, anything else through [str()]. *)
Definition field_text (v : value) : string :=
  match v with
  | PyNone => ""
  | _ => str v
  end.

(** The line [writer.writerow(fields)] writes.  A record of one empty field
    is written as a pair of quotes. *)
Definition writerow (fields : list value) : string :=
  match map field_text fields with
  | [EmptyString] => String quote (String quote lineterminator)
  | texts => join "," (map write_field texts) ++ lineterminator
  end.

(** ** [csv.DictWriter] with [extrasaction='raise'] and [restval=''] *)

Definition known_key (fieldnames : list string) (kv : string * value) : bool :=
  existsb (String.eqb (fst kv)) fieldnames.

Definition DictWriter_writerow (fieldnames : list string)
  (rowdict : list (string * value)) : result string :=
  if forallb (known_key fieldnames) rowdict
  then Ok (writerow (map (fun key => dict_get rowdict key (PyStr "")) fieldnames))
  else Raise (ValueError "dict contains fields not in fieldnames").

Definition DictWriter_writeheader (fieldnames : list string) : result string :=
  DictWriter_writerow fieldnames
    (fold_left (fun d key => set_item d key (PyStr key)) fieldnames []).

End Csv.

Import Csv.

(* ================================================================== *)
(** * Library functions the script is parameterised by *)
(* ================================================================== *)

(** The script calls [urlparse] and [pathlib.Path]; its model takes them as
    parameters, so that what is proved of it holds whatever they compute.
    The two modules below give the functions of CPython 3.11 on POSIX, to run
    the model on examples. *)

Module Urllib.

(** [urlsplit(url).netloc], after [urllib/parse.py].  A netloc that holds both
    square brackets is checked there against the [ipaddress] module; that
    check is left out, and the netloc is returned as for a well-formed
    bracketed address. *)

Definition c0_or_space (c : ascii) : bool := (code c <=? 32)%nat.

Fixpoint lstrip_c0 (url : string) : string :=
  match url with
  | EmptyString => EmptyString
  | String c rest => if c0_or_space c then lstrip_c0 rest else url
  end.

Definition unsafe (c : ascii) : bool :=
  Ascii.eqb c TAB || Ascii.eqb c CR || Ascii.eqb c LF.

Fixpoint remove_unsafe (url : string) : string :=
  match url with
  | EmptyString => EmptyString
  | String c rest =>
      if unsafe c then remove_unsafe rest else String c (remove_unsafe rest)
  end.

Definition ascii_alpha (c : ascii) : bool :=
  between 65 90 (code c) || between 97 122 (code c).

Definition scheme_char (c : ascii) : bool :=
  ascii_alpha c || between 48 57 (code c)
  || Ascii.eqb c "+" || Ascii.eqb c "-" || Ascii.eqb c ".".

(** The text after the first colon, when what precedes it is made of scheme
    characters only. *)
Fixpoint after_scheme (url : string) : option string :=
  match url with
  | EmptyString => None
  | String c rest =>
      if Ascii.eqb c ":" then Some rest
      else if scheme_char c then after_scheme rest
      else None
  end.

Definition drop_scheme (url : string) : string :=
  match url with
  | EmptyString => url
  | String c rest =>
      if ascii_alpha c then
        match after_scheme rest with
        | Some tail => tail
        | None => url
        end
      else url
  end.

(** [_splitnetloc]: up to the first of [/], [?] and [#]. *)
Fixpoint take_netloc (url : string) : string :=
  match url with
  | EmptyString => EmptyString
  | String c rest =>
      if Ascii.eqb c "/" || Ascii.eqb c "?" || Ascii.eqb c "#" then EmptyString
      else String c (take_netloc rest)
  end.

Definition netloc (url : string) : result string :=
  match drop_scheme (remove_unsafe (lstrip_c0 url)) with
  | String "/" (String "/" rest) =>
      let n := take_netloc rest in
      if xorb (contains "[" n) (contains "]" n)
      then Raise (ValueError "Invalid IPv6 URL")
      else Ok n
  | _ => Ok ""
  end.

End Urllib.

Module Posix.

(** [PurePosixPath]: the parts of a path are what lies between slashes, empty
    texts and single dots dropped. *)
Definition parts (path : string) : list string :=
  filter (fun p => negb ((p =? "") || (p =? "."))) (split "/" path).

Fixpoint leading_slashes (path : string) : nat :=
  match path with
  | String "/" rest => S (leading_slashes rest)
  | _ => O
  end.

(** Exactly two leading slashes are kept, any other number makes one. *)
Definition root (path : string) : string :=
  match leading_slashes path with
  | O => ""
  | 2 => "//"
  | _ => "/"
  end.

(** [str(Path(path))] *)
Definition path_str (path : string) : string :=
  match root path ++ join "/" (parts path) with
  | EmptyString => "."
  | text => text
  end.

(** [Path(path).name]: the last part. *)
Definition path_name (path : string) : string := last (parts path) "".

(** [name[name.rfind('.'):]], when [name] has a dot. *)
Fixpoint from_last_dot (name : string) : option string :=
  match name with
  | EmptyString => None
  | String c rest =>
      match from_last_dot rest with
      | Some tail => Some tail
      | None => if Ascii.eqb c "." then Some name else None
      end
  end.

(** [Path(path).suffix]: from the last dot of the name, unless that dot is the
    first or the last character of the name. *)
Definition path_suffix (path : string) : string :=
  let name := path_name path in
  match from_last_dot name with
  | Some tail =>
      if ((String.length tail <? String.length name)
          && (1 <? String.length tail))%nat
      then tail else ""
  | None => ""
  end.

End Posix.

(* ================================================================== *)
(** * Input and output *)
(* ================================================================== *)

(** What the file system answers: whether a path can be opened for reading,
    the records [csv.reader] yields for the open file, the document
    [json.load] returns for it, and whether a path can be opened for writing.
    Each answer may be a raised exception. *)
Record world : Type := {
  open_for_reading : string -> result unit;
  csv_records : string -> result (list (list string));
  json_document : string -> result value;
  open_for_writing : string -> result unit
}.

(** The effects of a run, in order.  [Open] records an opening that
    succeeded; one that fails raises and leaves no effect. *)
Inductive mode : Type := Reading | Writing.

Inductive event : Type :=
| Open (path : string) (m : mode)
| Write (path text : string)
| Print (text : string).

(** A computation with effects: its events up to its end or to the exception
    that stopped it, and its outcome. *)
Definition io (A : Type) : Type := (list event * result A)%type.

Definition ret {A : Type} (a : A) : io A := ([], Ok a).

Definition lift {A : Type} (r : result A) : io A := ([], r).

Definition emit (e : event) : io unit := ([e], Ok tt).

Definition io_bind {A B : Type} (c : io A) (k : A -> io B) : io B :=
  match snd c with
  | Ok a => (fst c ++ fst (k a), snd (k a))%list
  | Raise e => (fst c, Raise e)
  end.

Notation "x <~ c ;; k" := (io_bind c (fun x => k))
  (at level 61, c at next level, right associativity).

(** The text a run leaves in the file at [path]: opening for writing
    truncates, every write appends.  [None]: the run never opened it. *)
Definition file_step (path : string) (acc : option string) (e : event)
  : option string :=
  match e with
  | Open p Writing => if p =? path then Some "" else acc
  | Write p text => if p =? path then option_map (fun t => t ++ text) acc else acc
  | _ => acc
  end.

Definition file_text (path : string) (trace : list event) : option string :=
  fold_left (file_step path) trace None.

(* ================================================================== *)
(** * The script *)
(* ================================================================== *)

(** [class PasswordEntry]: the annotations say [str]; at run time a field
    holds whatever the reader found. *)
Record PasswordEntry : Type := {
  name : value;
  login_uri : value;
  login_username : value;
  login_password : value;
  notes : value
}.

(** The parsed command line. *)
Record arguments : Type := {
  input : string;
  output : string
}.

(** Sample data, used to run the model. *)
Module Sample.

Definition note_entry (title : string) : PasswordEntry :=
  {| name := PyStr title; login_uri := PyStr ""; login_username := PyStr "";
     login_password := PyStr ""; notes := PyStr "" |}.

Definition login_entry (uri username : string) : PasswordEntry :=
  {| name := PyStr "Foo"; login_uri := PyStr uri;
     login_username := PyStr username; login_password := PyStr "s3cret";
     notes := PyStr "" |}.

(** A login with a web address, an Android package and a username. *)
Definition mail : PasswordEntry :=
  login_entry "https://example.com/login,androidapp://com.example" "jane".

(** A login with a bare domain and no username. *)
Definition no_username : PasswordEntry := login_entry "example.com" "".

(** An identity item with a first and a last name only. *)
Definition identity_item : list (string * value) :=
  [("type", PyInt 4);
   ("name", PyStr "Passport");
   ("identity", PyDict [("firstName", PyStr "Jane");
                        ("lastName", PyStr "Doe");
                        ("phone", PyStr "");
                        ("company", PyStr "")])].

(** A secure note item (type 2) that carries login data all the same. *)
Definition note_item : list (string * value) :=
  [("type", PyInt 2);
   ("name", PyStr "Wifi");
   ("notes", PyStr "guest network");
   ("login", PyDict [("username", PyStr "ghost");
                     ("password", PyStr "boo");
                     ("uris", PyList [PyDict [("uri", PyStr "https://example.com")]])])].

Definition csv_header : list string :=
  ["folder"; "name"; "notes"; "login_uri"; "login_username"; "login_password"].

Definition csv_row : list string := [""; "Foo"; ""; ""; ""; ""].

(** A file system where every path opens, [vault.csv] holds one row and
    [vault.json] two items. *)
Definition files : world :=
  {| open_for_reading := fun _ => Ok tt;
     csv_records := fun path =>
       if path =? "vault.csv" then Ok [csv_header; csv_row] else Raise CsvError;
     json_document := fun path =>
       if path =? "vault.json"
       then Ok (PyDict [("items", PyList [PyDict identity_item; PyDict note_item])])
       else Raise JSONDecodeError;
     open_for_writing := fun _ => Ok tt |}.

(** A login item with two URIs. *)
Definition login_item : list (string * value) :=
  [("type", PyInt 1);
   ("name", PyStr "Mail");
   ("login", PyDict [("uris", PyList [PyDict [("uri", PyStr "https://example.com/login")];
                                      PyDict [("uri", PyStr "https://mail.example.com")]]);
                     ("username", PyStr "jane");
                     ("password", PyStr "s3cret")])].



(** The file system of [files], where nothing can be written. *)
Definition read_only : world :=
  {| open_for_reading := open_for_reading files;
     csv_records := csv_records files;
     json_document := json_document files;
     open_for_writing := fun _ => Raise OSError |}.

End Sample.

Section Script.

(** Three library functions are parameters of the model:
    [urlparse(uri).netloc], which raises [ValueError] on some texts, and
    [Path(p).suffix] and [str(Path(p))] of [pathlib]. *)
Variable urlparse_netloc : string -> result string.
Variable path_suffix : string -> string.
Variable path_str : string -> string.

(** ** [PasswordEntry.format_uri] *)

(** The [for uri in uris] loop: [Some r] when an iteration returns or raises,
    [None] when the loop runs to its end. *)
Fixpoint format_uri_loop (uris : list string) : option (result string) :=
  match uris with
  | [] => None
  | uri :: rest =>
      if startswith uri "http://" || startswith uri "https://" then
        Some (netloc <- urlparse_netloc uri ;; Ok ("https://" ++ netloc))
      else if contains "." uri && negb (startswith uri "androidapp://") then
        Some (Ok ("https://" ++ strip uri))
      else format_uri_loop rest
  end.

Definition format_uri (self : PasswordEntry) : result string :=
  if negb (truthy (login_uri self)) then
    Ok "https://mybitwardensecurenotesdonotdelete.com"
  else
    match login_uri self with
    | PyStr s =>
        match format_uri_loop (split "," s) with
        | Some r => r
        | None => Ok (replace s "androidapp://" "android://@")
        end
    | _ => Raise AttributeError
    end.

(** ** [PasswordEntry.to_google_format] *)

Definition counter_value (secure_note_counter : option Z) : value :=
  match secure_note_counter with
  | Some n => PyInt n
  | None => PyNone
  end.

Definition to_google_format (self : PasswordEntry)
  (secure_note_counter : option Z) : result (list (string * value)) :=
  url <- format_uri self ;;
  let password :=
    if truthy (login_password self) then login_password self
    else PyStr "secure_note_password" in
  let username :=
    if truthy (login_username self) then login_username self
    else PyStr (str (name self) ++ " - row:"
                ++ str (counter_value secure_note_counter)) in
  Ok [("name", name self);
      ("url", PyStr url);
      ("username", username);
      ("password", password);
      ("note", notes self)].

(** ** [PasswordManager.from_csv] *)

Definition entry_of_row (row : list (string * value)) : PasswordEntry :=
  {| name := dict_get row "name" (PyStr "");
     login_uri := dict_get row "login_uri" (PyStr "");
     login_username := dict_get row "login_username" (PyStr "");
     login_password := dict_get row "login_password" (PyStr "");
     notes := dict_get row "notes" (PyStr "") |}.

Definition from_csv (w : world) (file_path : string) : io (list PasswordEntry) :=
  _ <~ lift (open_for_reading w file_path) ;;
  _ <~ emit (Open file_path Reading) ;;
  records <~ lift (csv_records w file_path) ;;
  ret (map entry_of_row (DictReader records)).

(** ** [PasswordManager.from_json] *)

(** The body of [for item in items]. *)
Definition entry_of_item (item : value) : result PasswordEntry :=
  type <- get item "type" PyNone ;;
  if eq_int type 1 then
    login <- get item "login" (PyDict []) ;;
    uris <- get login "uris" (PyList []) ;;
    uri <- (if truthy uris
            then first <- getitem0 uris ;; getitem first "uri"
            else Ok (PyStr "")) ;;
    name <- get item "name" (PyStr "") ;;
    login_username <- get login "username" (PyStr "") ;;
    login_password <- get login "password" (PyStr "") ;;
    notes <- get item "notes" (PyStr "") ;;
    Ok {| name := name; login_uri := uri; login_username := login_username;
          login_password := login_password; notes := notes |}
  else if eq_int type 4 then
    identity <- get item "identity" (PyDict []) ;;
    firstName <- get identity "firstName" (PyStr "") ;;
    lastName <- get identity "lastName" (PyStr "") ;;
    phone <- get identity "phone" (PyStr "") ;;
    email <- get identity "email" (PyStr "") ;;
    address1 <- get identity "address1" (PyStr "") ;;
    company <- get identity "company" (PyStr "") ;;
    item_notes <- get item "notes" (PyStr "") ;;
    let notes :=
      "Name: " ++ str firstName ++ " " ++ str lastName ++ String LF
      ("Phone: " ++ str phone ++ String LF
      ("Email: " ++ str email ++ String LF
      ("Address: " ++ str address1 ++ String LF
      ("Company: " ++ str company ++ String LF
      ("Notes: " ++ str item_notes))))) in
    name <- get item "name" (PyStr "") ;;
    Ok {| name := name; login_uri := PyStr ""; login_username := PyStr "";
          login_password := PyStr ""; notes := PyStr notes |}
  else
    name <- get item "name" (PyStr "") ;;
    notes <- get item "notes" (PyStr "") ;;
    Ok {| name := name; login_uri := PyStr ""; login_username := PyStr "";
          login_password := PyStr ""; notes := notes |}.

Fixpoint entries_of_items (items : list value) : result (list PasswordEntry) :=
  match items with
  | [] => Ok []
  | item :: rest =>
      entry <- entry_of_item item ;;
      entries <- entries_of_items rest ;;
      Ok (entry :: entries)
  end.

Definition from_json (w : world) (file_path : string) : io (list PasswordEntry) :=
  _ <~ lift (open_for_reading w file_path) ;;
  _ <~ emit (Open file_path Reading) ;;
  data <~ lift (json_document w file_path) ;;
  items <~ lift (getitem data "items") ;;
  elements <~ lift (iter items) ;;
  lift (entries_of_items elements).

(** ** [PasswordManager.to_google_csv] *)

Definition fieldnames : list string :=
  ["name"; "url"; "username"; "password"; "note"].

(** [writer.writerow(rowdict)] on the file at [file_path]. *)
Definition write_row (file_path : string) (rowdict : list (string * value))
  : io unit :=
  line <~ lift (DictWriter_writerow fieldnames rowdict) ;;
  emit (Write file_path line).

(** Whether the loop takes its first branch. *)
Definition is_secure_note (entry : PasswordEntry) : bool :=
  negb (truthy (login_uri entry)) && negb (truthy (login_username entry)).

(** The [for entry in self.entries] loop, from the entries still to write and
    the current value of [secure_note_counter]. *)
Fixpoint write_entries (file_path : string) (entries : list PasswordEntry)
  (secure_note_counter : Z) : io unit :=
  match entries with
  | [] => ret tt
  | entry :: rest =>
      if is_secure_note entry then
        row <~ lift (to_google_format entry (Some secure_note_counter)) ;;
        _ <~ write_row file_path row ;;
        write_entries file_path rest (secure_note_counter + 1)
      else
        row <~ lift (to_google_format entry None) ;;
        _ <~ write_row file_path row ;;
        write_entries file_path rest secure_note_counter
  end.

Definition to_google_csv (w : world) (entries : list PasswordEntry)
  (file_path : string) : io unit :=
  let secure_note_counter := 1%Z in
  _ <~ lift (open_for_writing w file_path) ;;
  _ <~ emit (Open file_path Writing) ;;
  header <~ lift (DictWriter_writeheader fieldnames) ;;
  _ <~ emit (Write file_path header) ;;
  write_entries file_path entries secure_note_counter.

(** ** [main], from the parsed arguments *)

Definition main (w : world) (args : arguments) : io unit :=
  let input_path := input args in
  let output_path := output args in
  let file_extension := lower (path_suffix input_path) in
  entries <~ (if file_extension =? ".csv" then from_csv w input_path
              else if file_extension =? ".json" then from_json w input_path
              else lift (Raise (ValueError
                     "Unsupported file format. Please provide a CSV or JSON file."))) ;;
  _ <~ to_google_csv w entries output_path ;;
  emit (Print ("Google CSV file saved as " ++ path_str output_path ++ ".")).

(* ================================================================== *)
(** * Vocabulary of the specification *)
(* ================================================================== *)

(** The two rules of the scan, as the specification words them. *)
Definition scheme_rule (candidate : string) : Prop :=
  (exists rest, candidate = "http://" ++ rest)
  \/ (exists rest, candidate = "https://" ++ rest).

Definition dot_rule (candidate : string) : Prop :=
  (exists a b, candidate = a ++ "." ++ b)
  /\ ~ (exists rest, candidate = "androidapp://" ++ rest).

Definition unmatched (candidate : string) : Prop :=
  ~ scheme_rule candidate /\ ~ dot_rule candidate.

(** A text made of whitespace only. *)
Fixpoint all_space (s : string) : bool :=
  match s with
  | EmptyString => true
  | String c s' => isspace c && all_space s'
  end.

(** The header line of the output file. *)
Definition header_line : string :=
  "name,url,username,password,note" ++ lineterminator.

(** The line the writer emits for an entry mapped with a given counter. *)
Definition row_line (entry : PasswordEntry) (secure_note_counter : option Z)
  : result string :=
  row <- to_google_format entry secure_note_counter ;;
  DictWriter_writerow fieldnames row.

(** The line of a secure note mapped with the counter value [k]. *)
Definition secure_note_line (entry : PasswordEntry) (k : Z) : string :=
  writerow
    [name entry;
     PyStr "https://mybitwardensecurenotesdonotdelete.com";
     PyStr (str (name entry) ++ " - row:" ++ str_of_int k);
     (if truthy (login_password entry) then login_password entry
      else PyStr "secure_note_password");
     notes entry].

(** The text made of lines written one after the other. *)
Fixpoint text_of (lines : list string) : string :=
  match lines with
  | [] => ""
  | line :: rest => line ++ text_of rest
  end.

(** How many entries of a list the writer takes for secure notes. *)
Fixpoint secure_notes (entries : list PasswordEntry) : Z :=
  match entries with
  | [] => 0
  | entry :: rest =>
      ((if is_secure_note entry then 1 else 0) + secure_notes rest)%Z
  end.

(** An entry can be written when the canonicalisation of its URI returns. *)
Definition writable (entry : PasswordEntry) : Prop :=
  exists url, format_uri entry = Ok url.

(** The username the writer synthesises for a secure note mapped with the
    counter value [k]. *)
Definition secure_note_username (entry : PasswordEntry) (k : Z) : string :=
  str (name entry) ++ " - row:" ++ str_of_int k.

(** An effect on the output file at [path]. *)
Definition on_file (path : string) (e : event) : Prop :=
  e = Open path Writing \/ exists text, e = Write path text.

(** An effect that is the opening of a file for reading. *)
Definition is_read (e : event) : Prop := exists path, e = Open path Reading.

(** A field with the empty text in the place of [None]. *)
Definition or_empty (v : value) : value :=
  match v with
  | PyNone => PyStr ""
  | _ => v
  end.

(** A field of a record counts as empty when it is the empty text or
    [None]. *)
Definition blank (v : value) : Prop := v = PyStr "" \/ v = PyNone.

(* ================================================================== *)
(** * Properties *)
(* ================================================================== *)

(** ** The [str] methods *)

Lemma startswith_iff (s p : string) :
  startswith s p = true <-> exists t, s = p ++ t.
Proof.
  revert s; induction p as [|a p IH]; intros s.
  - split; [intros _; now exists s | intros _; now destruct s].
  - destruct s as [|b s]; simpl.
    + split; [discriminate | intros [t H]; discriminate].
    + rewrite andb_true_iff, Ascii.eqb_eq, IH. split.
      * intros [-> [t ->]]. now exists t.
      * intros [t H]. injection H as -> ->. split; [reflexivity | now exists t].
Qed.

Lemma contains_iff (sub s : string) :
  contains sub s = true <-> exists a b, s = a ++ sub ++ b.
Proof.
  induction s as [|c s IH]; simpl.
  - rewrite orb_false_r, startswith_iff. split.
    + intros [t H]. now exists "", t.
    + intros [a [b H]]. destruct a; [now exists b | discriminate].
  - rewrite orb_true_iff, startswith_iff, IH. split.
    + intros [[t H] | [a [b H]]].
      * now exists "", t.
      * exists (String c a), b. simpl. now rewrite H.
    + intros [a [b H]]. destruct a as [|c' a]; simpl in H.
      * left. now exists b.
      * right. injection H as _ H. now exists a, b.
Qed.

(** [split] cuts at every separator and nowhere else: joining the pieces
    with the separator gives the text back, and no piece holds one. *)
Lemma split_not_nil (sep : ascii) (s : string) : split sep s <> [].
Proof.
  destruct s as [|c s]; simpl; [discriminate|].
  destruct (Ascii.eqb c sep); [discriminate|].
  destruct (split sep s); discriminate.
Qed.

Lemma join_split (sep : ascii) (s : string) :
  join (String sep "") (split sep s) = s.
Proof.
  induction s as [|c s IH]; simpl; [reflexivity|].
  destruct (Ascii.eqb c sep) eqn:E.
  - apply Ascii.eqb_eq in E. subst c.
    destruct (split sep s) as [|w ws] eqn:S; [now apply split_not_nil in S|].
    simpl. simpl in IH. now rewrite IH.
  - destruct (split sep s) as [|w ws] eqn:S; [now apply split_not_nil in S|].
    destruct ws; simpl in *; now rewrite IH.
Qed.

Lemma split_pieces (sep : ascii) (s piece : string) :
  In piece (split sep s) -> contains (String sep "") piece = false.
Proof.
  revert piece; induction s as [|c s IH]; simpl; intros piece H.
  - destruct H as [<-|[]]. reflexivity.
  - destruct (Ascii.eqb c sep) eqn:E.
    + destruct H as [<-|H]; [reflexivity | now apply IH].
    + destruct (split sep s) as [|w ws] eqn:S; [now apply split_not_nil in S|].
      destruct H as [<-|H].
      * simpl. rewrite Ascii.eqb_sym, E. simpl.
        apply (IH w). now left.
      * apply IH. now right.
Qed.

(** [strip] removes whitespace, and only whitespace, from both ends. *)
Lemma lstrip_spec (s : string) :
  exists ws,
    s = ws ++ lstrip s /\ all_space ws = true
    /\ forall c rest, lstrip s = String c rest -> isspace c = false.
Proof.
  induction s as [|c s (ws & Heq & Hws & Hhead)]; cbn [lstrip].
  - exists "". repeat split. discriminate.
  - destruct (isspace c) eqn:E.
    + exists (String c ws). split; [|split].
      * cbn. now f_equal.
      * cbn. now rewrite E, Hws.
      * exact Hhead.
    + exists "". split; [|split]; try reflexivity.
      intros c' rest H. injection H as <- _. exact E.
Qed.

Lemma rstrip_spec (s : string) :
  exists ws,
    s = rstrip s ++ ws /\ all_space ws = true
    /\ forall body c, rstrip s = body ++ String c "" -> isspace c = false.
Proof.
  induction s as [|c s (ws & Heq & Hws & Hlast)]; cbn [rstrip].
  - exists "". split; [|split]; try reflexivity.
    intros [|b body] c H; discriminate H.
  - destruct (rstrip s) as [|c' r] eqn:R.
    + cbn in Heq. destruct (isspace c) eqn:E.
      * exists (String c ws). split; [|split].
        -- cbn. now f_equal.
        -- cbn. now rewrite E, Hws.
        -- intros [|b body] c0 H; discriminate H.
      * exists ws. split; [|split].
        -- cbn. now f_equal.
        -- exact Hws.
        -- intros [|b body] c0 H; cbn in H.
           ++ injection H as <-. exact E.
           ++ injection H as _ H. destruct body; discriminate H.
    + exists ws. split; [|split].
      * cbn. now f_equal.
      * exact Hws.
      * intros [|b body] c0 H; cbn in H; [discriminate H|].
        injection H as _ H. exact (Hlast body c0 H).
Qed.

(** [replace] goes from left to right: an occurrence at the head is replaced
    and the scan goes on after it; otherwise the head character is kept. *)
Lemma replace_from_skip (old new skipped s : string) :
  replace_from old new (String.length skipped) (skipped ++ s)
  = replace_from old new 0 s.
Proof.
  induction skipped as [|c skipped IH]; cbn; [|exact IH].
  destruct s; reflexivity.
Qed.

Lemma replace_at_head (c : ascii) (old new s : string) :
  replace (String c old ++ s) (String c old) new
  = new ++ replace s (String c old) new.
Proof.
  unfold replace. cbn [append replace_from].
  assert (H : startswith (String c (old ++ s)) (String c old) = true).
  { apply startswith_iff. now exists s. }
  rewrite H.
  replace (String.length (String c old) - 1) with (String.length old)
    by (cbn [String.length]; lia).
  now rewrite replace_from_skip.
Qed.

Lemma replace_past_head (c : ascii) (old new s : string) :
  old <> "" -> startswith (String c s) old = false ->
  replace (String c s) old new = String c (replace s old new).
Proof.
  intros Hne H. destruct old as [|a old]; [now destruct Hne|].
  unfold replace. cbn [replace_from]. now rewrite H.
Qed.

Lemma replace_absent (old new s : string) :
  old <> "" -> contains old s = false -> replace s old new = s.
Proof.
  intros Hne. induction s as [|c s IH]; intros H.
  - now destruct old.
  - cbn [contains] in H. apply orb_false_iff in H as [Hhead Htail].
    rewrite (replace_past_head _ _ _ _ Hne Hhead). now rewrite IH.
Qed.

Lemma truthy_str (s : string) : truthy (PyStr s) = true <-> s <> "".
Proof.
  simpl. rewrite negb_true_iff. apply String.eqb_neq.
Qed.

Lemma falsy_str (s : string) : truthy (PyStr s) = false <-> s = "".
Proof.
  simpl. rewrite negb_false_iff. apply String.eqb_eq.
Qed.

(** ** [format_uri] *)

Lemma scheme_rule_iff (c : string) :
  startswith c "http://" || startswith c "https://" = true <-> scheme_rule c.
Proof.
  unfold scheme_rule. now rewrite orb_true_iff, !startswith_iff.
Qed.

Lemma dot_rule_iff (c : string) :
  contains "." c && negb (startswith c "androidapp://") = true <-> dot_rule c.
Proof.
  unfold dot_rule.
  rewrite andb_true_iff, negb_true_iff, contains_iff, <- startswith_iff.
  now rewrite not_true_iff_false.
Qed.

Lemma format_uri_loop_unmatched (before rest : list string) :
  (forall x, In x before -> unmatched x) ->
  format_uri_loop (before ++ rest) = format_uri_loop rest.
Proof.
  induction before as [|x before IH]; intros H; [reflexivity|].
  cbn [app format_uri_loop].
  destruct (H x (or_introl eq_refl)) as [Hs Hd].
  rewrite <- scheme_rule_iff in Hs. rewrite <- dot_rule_iff in Hd.
  apply not_true_is_false in Hs, Hd. rewrite Hs, Hd.
  apply IH. intros y Hy. apply H. now right.
Qed.

Lemma format_uri_text (self : PasswordEntry) (uri : string) :
  login_uri self = PyStr uri -> uri <> "" ->
  format_uri self =
  match format_uri_loop (split "," uri) with
  | Some r => r
  | None => Ok (replace uri "androidapp://" "android://@")
  end.
Proof.
  intros H Hne. unfold format_uri. rewrite H.
  apply truthy_str in Hne. now rewrite Hne.
Qed.

(** C1. For an entry whose [login_uri] is a non-empty text, [format_uri]
    splits it at the commas and scans the candidates in order.  At the first
    candidate that matches a rule it stops: a candidate that starts with
    [http://] or [https://] gives [https://] followed by its network location
    (an exception of [urlparse] goes through); otherwise a candidate that
    holds a dot and does not start with [androidapp://] gives [https://]
    followed by the candidate stripped of surrounding whitespace.  When no
    candidate matches, the result is the unsplit text with every
    [androidapp://] replaced by [android://@]; so [androidapp://com.example]
    gives [android://@com.example]. *)
Theorem format_uri_first_match (self : PasswordEntry) (uri : string) :
  login_uri self = PyStr uri -> uri <> "" ->
  (forall before candidate after,
      split "," uri = (before ++ candidate :: after)%list ->
      (forall x, In x before -> unmatched x) ->
      (scheme_rule candidate ->
         (forall netloc, urlparse_netloc candidate = Ok netloc ->
                         format_uri self = Ok ("https://" ++ netloc))
         /\ (forall e, urlparse_netloc candidate = Raise e ->
                       format_uri self = Raise e))
      /\ (~ scheme_rule candidate -> dot_rule candidate ->
          format_uri self = Ok ("https://" ++ strip candidate)))
  /\ ((forall x, In x (split "," uri) -> unmatched x) ->
      format_uri self = Ok (replace uri "androidapp://" "android://@"))
  /\ (uri = "androidapp://com.example" ->
      format_uri self = Ok "android://@com.example").
Proof.
  intros H Hne. rewrite (format_uri_text self uri H Hne).
  split; [|split].
  - intros before candidate after Hsplit Hbefore.
    rewrite Hsplit, (format_uri_loop_unmatched _ _ Hbefore).
    cbn [format_uri_loop]. split.
    + intros Hs. apply scheme_rule_iff in Hs. rewrite Hs.
      split; intros r Hr; now rewrite Hr.
    + intros Hs Hd.
      rewrite <- scheme_rule_iff in Hs. apply not_true_is_false in Hs.
      apply dot_rule_iff in Hd. now rewrite Hs, Hd.
  - intros Hall.
    rewrite <- (app_nil_r (split "," uri)).
    now rewrite (format_uri_loop_unmatched _ [] Hall).
  - intros ->. reflexivity.
Qed.

(** C2. An entry whose [login_uri] is the empty text gets the fixed URL of
    notes-only entries, whatever its other fields hold. *)
Theorem format_uri_empty (self : PasswordEntry) :
  login_uri self = PyStr "" ->
  format_uri self = Ok "https://mybitwardensecurenotesdonotdelete.com".
Proof.
  intros H. unfold format_uri. now rewrite H.
Qed.

Lemma isspace_not_letter (c : ascii) :
  isspace c = true -> Ascii.eqb "h" c = false /\ Ascii.eqb "a" c = false.
Proof.
  intros H. split.
  - destruct (Ascii.eqb_spec "h" c) as [<-|]; [discriminate H | reflexivity].
  - destruct (Ascii.eqb_spec "a" c) as [<-|]; [discriminate H | reflexivity].
Qed.

Lemma split_nonempty_piece (sep : ascii) (uri : string)
  (before after : list string) (c : ascii) (rest : string) :
  split sep uri = (before ++ String c rest :: after)%list -> uri <> "".
Proof.
  intros H ->. simpl in H.
  destruct before as [|x [|y before]]; discriminate H.
Qed.

(** C10. The candidates are not stripped before the prefix tests.  For the
    text [foo, https://bar.com] the second candidate starts with a space, so
    it fails the scheme test, matches the dot rule and is stripped only then:
    the result is [https://https://bar.com].  In general a candidate the scheme
    rule applies to has no leading whitespace, and a candidate with leading
    whitespace and a dot, reached by the scan, gives [https://] followed by
    the stripped candidate. *)
Theorem format_uri_leading_space :
  (forall self, login_uri self = PyStr "foo, https://bar.com" ->
                format_uri self = Ok "https://https://bar.com")
  /\ (forall candidate, scheme_rule candidate -> lstrip candidate = candidate)
  /\ (forall self uri before c rest after,
        login_uri self = PyStr uri ->
        split "," uri = (before ++ String c rest :: after)%list ->
        (forall x, In x before -> unmatched x) ->
        isspace c = true ->
        contains "." rest = true ->
        ~ scheme_rule (String c rest)
        /\ format_uri self = Ok ("https://" ++ strip (String c rest))).
Proof.
  split; [|split].
  - intros self H. unfold format_uri. rewrite H. reflexivity.
  - intros candidate [[rest ->] | [rest ->]]; reflexivity.
  - intros self uri before c rest after H Hsplit Hbefore Hc Hdot.
    destruct (isspace_not_letter c Hc) as [Hh Ha].
    assert (Hs : startswith (String c rest) "http://"
                 || startswith (String c rest) "https://" = false).
    { cbn [startswith]. now rewrite Hh. }
    split.
    + rewrite <- scheme_rule_iff. now rewrite Hs.
    + rewrite (format_uri_text self uri H
                 (split_nonempty_piece _ _ _ _ _ _ Hsplit)).
      rewrite Hsplit, (format_uri_loop_unmatched _ _ Hbefore).
      cbn [format_uri_loop]. rewrite Hs.
      assert (Hd : contains "." (String c rest)
                   && negb (startswith (String c rest) "androidapp://") = true).
      { cbn [contains startswith]. rewrite Hdot, Ha.
        now rewrite orb_true_r. }
      now rewrite Hd.
Qed.

(** ** [to_google_format] *)

Lemma DictWriter_writerow_fields (n u us p nt : value) :
  DictWriter_writerow fieldnames
    [("name", n); ("url", u); ("username", us); ("password", p); ("note", nt)]
  = Ok (writerow [n; u; us; p; nt]).
Proof. reflexivity. Qed.

Lemma to_google_format_ok (self : PasswordEntry) (c : option Z) (url : string) :
  format_uri self = Ok url ->
  to_google_format self c =
  Ok [("name", name self);
      ("url", PyStr url);
      ("username",
        if truthy (login_username self) then login_username self
        else PyStr (str (name self) ++ " - row:" ++ str (counter_value c)));
      ("password",
        if truthy (login_password self) then login_password self
        else PyStr "secure_note_password");
      ("note", notes self)].
Proof.
  intros H. unfold to_google_format. now rewrite H.
Qed.

Lemma row_line_ok (self : PasswordEntry) (c : option Z) :
  writable self -> exists line, row_line self c = Ok line.
Proof.
  intros [url H]. unfold row_line.
  rewrite (to_google_format_ok self c url H). cbn [bind].
  rewrite DictWriter_writerow_fields. eauto.
Qed.

Lemma row_line_writable (self : PasswordEntry) (c : option Z) (line : string) :
  row_line self c = Ok line -> writable self.
Proof.
  unfold row_line, to_google_format, writable.
  destruct (format_uri self) as [url|e]; [eauto | discriminate].
Qed.

Lemma secure_note_writable (self : PasswordEntry) :
  is_secure_note self = true ->
  format_uri self = Ok "https://mybitwardensecurenotesdonotdelete.com".
Proof.
  unfold is_secure_note, format_uri. intros H.
  apply andb_true_iff in H as [H _]. now rewrite H.
Qed.

(** Every entry read from a CSV file, whose [login_uri] is a text or [None],
    can be written as long as [urlparse] accepts the candidates it is given. *)
Lemma format_uri_loop_returns (uris : list string) :
  (forall c, scheme_rule c -> exists netloc, urlparse_netloc c = Ok netloc) ->
  format_uri_loop uris = None \/ exists url, format_uri_loop uris = Some (Ok url).
Proof.
  intros Hlib. induction uris as [|uri rest IH]; [now left|].
  cbn [format_uri_loop].
  destruct (startswith uri "http://" || startswith uri "https://") eqn:Hs.
  - apply scheme_rule_iff in Hs. destruct (Hlib uri Hs) as [netloc ->].
    right. cbn [bind]. eauto.
  - destruct (contains "." uri && negb (startswith uri "androidapp://"));
      [right; eauto | exact IH].
Qed.

Lemma writable_text (self : PasswordEntry) :
  (forall c, scheme_rule c -> exists netloc, urlparse_netloc c = Ok netloc) ->
  login_uri self = PyNone \/ (exists uri, login_uri self = PyStr uri) ->
  writable self.
Proof.
  intros Hlib [H | [uri H]]; unfold writable.
  - unfold format_uri. rewrite H. cbn. eauto.
  - destruct (String.eqb_spec uri "") as [-> | Hne].
    + unfold format_uri. rewrite H. cbn. eauto.
    + rewrite (format_uri_text self uri H Hne).
      destruct (format_uri_loop_returns (split "," uri) Hlib) as [-> | [url ->]];
        eauto.
Qed.

(** C3, as the code has it.  Called without a counter on an entry whose
    [login_username] is empty, [to_google_format] still synthesises a
    username with the row suffix: the name, then [ - row:None], whatever
    [login_uri] holds.  With a counter [k] the suffix is [ - row:k].  An entry
    with a non-empty [login_username] keeps it: for such an entry no
    placeholder is produced. *)
Theorem to_google_format_username (self : PasswordEntry) :
  (truthy (login_username self) = false ->
   forall url, format_uri self = Ok url ->
     (forall row, to_google_format self None = Ok row ->
        dict_get row "username" PyNone
        = PyStr (str (name self) ++ " - row:None"))
     /\ (forall k row, to_google_format self (Some k) = Ok row ->
        dict_get row "username" PyNone
        = PyStr (str (name self) ++ " - row:" ++ str_of_int k))
     /\ exists row, to_google_format self None = Ok row)
  /\ (truthy (login_username self) = true ->
      forall c row, to_google_format self c = Ok row ->
        dict_get row "username" PyNone = login_username self).
Proof.
  split.
  - intros Hu url Hurl. repeat split.
    + intros row. rewrite (to_google_format_ok self None url Hurl), Hu.
      intros [= <-]. reflexivity.
    + intros k row. rewrite (to_google_format_ok self (Some k) url Hurl), Hu.
      intros [= <-]. reflexivity.
    + rewrite (to_google_format_ok self None url Hurl). eauto.
  - intros Hu c row.
    unfold to_google_format.
    destruct (format_uri self) as [url|e]; [|discriminate].
    cbn [bind]. rewrite Hu. intros [= <-]. reflexivity.
Qed.

(** ** [to_google_csv] *)

(** One iteration of the loop: the line of the entry is written and the loop
    goes on; the counter moves by one exactly when the entry is taken for a
    secure note, and that entry is mapped with the value before the move. *)
Lemma write_entries_cons (file_path : string) (entry : PasswordEntry)
  (rest : list PasswordEntry) (c : Z) (line : string) :
  row_line entry (if is_secure_note entry then Some c else None) = Ok line ->
  write_entries file_path (entry :: rest) c =
  let next := (if is_secure_note entry then c + 1 else c)%Z in
  (Write file_path line :: fst (write_entries file_path rest next),
   snd (write_entries file_path rest next)).
Proof.
  unfold row_line. cbn [write_entries].
  destruct (is_secure_note entry);
    (destruct (to_google_format entry _) as [row|e]; [|discriminate]);
    cbn [bind]; intros H; unfold io_bind, write_row, lift, emit;
    cbn [fst snd]; rewrite H; reflexivity.
Qed.

(** When the mapping of an entry raises, the loop stops there. *)
Lemma write_entries_raise (file_path : string) (entry : PasswordEntry)
  (rest : list PasswordEntry) (c : Z) (e : exception) :
  format_uri entry = Raise e ->
  write_entries file_path (entry :: rest) c = ([], Raise e).
Proof.
  intros H. cbn [write_entries].
  destruct (is_secure_note entry);
    unfold to_google_format; rewrite H; reflexivity.
Qed.

(** What a run of the loop leaves: lines of the first entries, in order; it
    ends normally past the last entry, or with the exception raised by the
    mapping of the entry it stopped at. *)
Lemma write_entries_outcome (file_path : string) (entries : list PasswordEntry) :
  forall c, exists lines,
    fst (write_entries file_path entries c) = map (Write file_path) lines
    /\ Forall2 (fun entry line => exists k, row_line entry k = Ok line)
               (firstn (List.length lines) entries) lines
    /\ match snd (write_entries file_path entries c) with
       | Ok _ => List.length lines = List.length entries
       | Raise e =>
           exists entry,
             nth_error entries (List.length lines) = Some entry
             /\ format_uri entry = Raise e
       end.
Proof.
  induction entries as [|entry rest IH]; intros c.
  - exists []. repeat split. constructor.
  - destruct (format_uri entry) as [url|e] eqn:Hurl.
    + destruct (row_line_ok entry (if is_secure_note entry then Some c else None))
        as [line Hline]; [now exists url|].
      rewrite (write_entries_cons _ _ _ _ _ Hline). cbn [fst snd].
      destruct (IH (if is_secure_note entry then c + 1 else c)%Z)
        as (lines & Hl & Hrows & Hend).
      exists (line :: lines). cbn [map List.length firstn nth_error].
      rewrite Hl. split; [reflexivity|]. split.
      * constructor; [eauto | exact Hrows].
      * destruct (snd (write_entries file_path rest _)); [now f_equal | exact Hend].
    + rewrite (write_entries_raise _ _ _ _ _ Hurl).
      exists []. cbn. repeat split; [constructor | eauto].
Qed.

(** The invariant of the loop: past a run of entries that could all be
    written, a line stands for each of them, in order, and the counter has
    moved by the number of secure notes among them. *)
Lemma write_entries_app (file_path : string) (before rest : list PasswordEntry) :
  Forall writable before ->
  forall c, exists lines,
    Forall2 (fun entry line => exists k, row_line entry k = Ok line) before lines
    /\ write_entries file_path (before ++ rest)%list c =
       (map (Write file_path) lines
          ++ fst (write_entries file_path rest (c + secure_notes before)),
        snd (write_entries file_path rest (c + secure_notes before)))%list.
Proof.
  induction 1 as [|entry before Hentry Hbefore IH]; intros c.
  - exists []. split; [constructor|].
    cbn. rewrite Z.add_0_r. now destruct (write_entries file_path rest c).
  - destruct (row_line_ok entry (if is_secure_note entry then Some c else None)
                Hentry) as [line Hline].
    destruct (IH (if is_secure_note entry then c + 1 else c)%Z)
      as [lines [Hlines Heq]].
    exists (line :: lines). split.
    + constructor; [eauto | exact Hlines].
    + cbn [app]. rewrite (write_entries_cons _ _ _ _ _ Hline).
      cbv zeta. rewrite Heq. cbn [fst snd map app secure_notes].
      replace (c + ((if is_secure_note entry then 1 else 0)
                    + secure_notes before))%Z
        with ((if is_secure_note entry then c + 1 else c)
              + secure_notes before)%Z
        by (destruct (is_secure_note entry); lia).
      reflexivity.
Qed.

Lemma to_google_csv_opened (w : world) (entries : list PasswordEntry)
  (file_path : string) :
  open_for_writing w file_path = Ok tt ->
  to_google_csv w entries file_path =
  (Open file_path Writing :: Write file_path header_line
     :: fst (write_entries file_path entries 1),
   snd (write_entries file_path entries 1)).
Proof.
  intros H. unfold to_google_csv, io_bind, lift, emit. cbn [fst snd].
  rewrite H. reflexivity.
Qed.

Lemma append_empty (s : string) : s ++ "" = s.
Proof. induction s; cbn; congruence. Qed.

Lemma append_append (a b c : string) : (a ++ b) ++ c = a ++ b ++ c.
Proof. induction a; cbn; congruence. Qed.

Lemma file_text_writes (file_path : string) (lines : list string) (acc : string) :
  fold_left (file_step file_path) (map (Write file_path) lines) (Some acc)
  = Some (acc ++ text_of lines).
Proof.
  revert acc; induction lines as [|line lines IH]; intros acc.
  - cbn. now rewrite append_empty.
  - cbn [map fold_left file_step]. rewrite String.eqb_refl. cbn [option_map].
    rewrite IH. cbn [text_of]. now rewrite append_append.
Qed.

Lemma is_secure_note_text (entry : PasswordEntry) (uri username : string) :
  login_uri entry = PyStr uri -> login_username entry = PyStr username ->
  is_secure_note entry = true <-> uri = "" /\ username = "".
Proof.
  intros Hu Hn. unfold is_secure_note.
  now rewrite andb_true_iff, !negb_true_iff, Hu, Hn, !falsy_str.
Qed.

Lemma row_line_secure_note (entry : PasswordEntry) (k : Z) :
  is_secure_note entry = true ->
  row_line entry (Some k) = Ok (secure_note_line entry k).
Proof.
  intros H. unfold row_line, secure_note_line.
  rewrite (to_google_format_ok entry (Some k) _ (secure_note_writable entry H)).
  unfold is_secure_note in H. apply andb_true_iff in H as [_ H].
  apply negb_true_iff in H. rewrite H. reflexivity.
Qed.

(** Whatever comes before a secure note, the line written at its place, if
    the loop gets that far, carries the counter moved by the number of secure
    notes before it. *)
Lemma write_entries_nth (file_path : string) (before : list PasswordEntry)
  (entry : PasswordEntry) (after : list PasswordEntry) :
  is_secure_note entry = true ->
  forall c ev,
    nth_error (fst (write_entries file_path (before ++ entry :: after)%list c))
              (List.length before) = Some ev ->
    ev = Write file_path (secure_note_line entry (c + secure_notes before)).
Proof.
  intros H. induction before as [|b before IH]; intros c ev.
  - pose proof (row_line_secure_note entry c H) as Hline.
    replace (Some c) with (if is_secure_note entry then Some c else None)
      in Hline by now rewrite H.
    cbn [app List.length secure_notes].
    rewrite (write_entries_cons _ _ _ _ _ Hline). cbn [fst nth_error].
    rewrite Z.add_0_r. now intros [= <-].
  - cbn [app List.length secure_notes].
    destruct (format_uri b) as [url|e] eqn:Hurl.
    + destruct (row_line_ok b (if is_secure_note b then Some c else None))
        as [line Hline]; [now exists url|].
      rewrite (write_entries_cons _ _ _ _ _ Hline). cbn [fst nth_error].
      intros Hnth. apply IH in Hnth. rewrite Hnth. do 2 f_equal.
      destruct (is_secure_note b); lia.
    + rewrite (write_entries_raise _ _ _ _ _ Hurl). discriminate.
Qed.

(** C4. The writer keeps one counter.  It starts at 1; an entry whose
    [login_uri] and [login_username] are both empty is mapped with the current
    value and the counter then moves by one; any other entry is mapped
    without a counter and leaves it as it is.  Hence a secure note is written
    with [1 + ] the number of secure notes before it: the k-th secure note
    gets [k].  No other line can stand at its place, and its line does stand
    there when the entries before it could be written. *)
Theorem secure_note_counter (w : world) (file_path : string) :
  (forall entry uri username,
      login_uri entry = PyStr uri -> login_username entry = PyStr username ->
      (is_secure_note entry = true <-> uri = "" /\ username = ""))
  /\ (forall entries,
        open_for_writing w file_path = Ok tt ->
        to_google_csv w entries file_path =
        (Open file_path Writing :: Write file_path header_line
           :: fst (write_entries file_path entries 1),
         snd (write_entries file_path entries 1)))
  /\ (forall entry rest c,
        is_secure_note entry = true ->
        row_line entry (Some c) = Ok (secure_note_line entry c)
        /\ write_entries file_path (entry :: rest) c =
           (Write file_path (secure_note_line entry c)
              :: fst (write_entries file_path rest (c + 1)),
            snd (write_entries file_path rest (c + 1))))
  /\ (forall entry rest c line,
        is_secure_note entry = false ->
        row_line entry None = Ok line ->
        write_entries file_path (entry :: rest) c =
        (Write file_path line :: fst (write_entries file_path rest c),
         snd (write_entries file_path rest c)))
  /\ (forall before entry after,
        open_for_writing w file_path = Ok tt ->
        is_secure_note entry = true ->
        let k := (1 + secure_notes before)%Z in
        let place := (2 + List.length before)%nat in
        let trace :=
          fst (to_google_csv w (before ++ entry :: after)%list file_path) in
        row_line entry (Some k) = Ok (secure_note_line entry k)
        /\ (forall ev, nth_error trace place = Some ev ->
                       ev = Write file_path (secure_note_line entry k))
        /\ (Forall writable before ->
            nth_error trace place
            = Some (Write file_path (secure_note_line entry k)))).
Proof.
  split; [exact is_secure_note_text|].
  split; [intros entries; apply to_google_csv_opened|].
  split; [|split].
  - intros entry rest c H.
    pose proof (row_line_secure_note entry c H) as Hline.
    split; [exact Hline|].
    replace (Some c) with (if is_secure_note entry then Some c else None)
      in Hline by now rewrite H.
    rewrite (write_entries_cons _ _ _ _ _ Hline). now rewrite H.
  - intros entry rest c line H Hline.
    replace None with (if is_secure_note entry then Some c else None)
      in Hline by now rewrite H.
    rewrite (write_entries_cons _ _ _ _ _ Hline). now rewrite H.
  - intros before entry after Hopen H k place trace.
    pose proof (row_line_secure_note entry k H) as Hline.
    split; [exact Hline|].
    subst trace place. rewrite (to_google_csv_opened _ _ _ Hopen). cbn [fst].
    change (2 + List.length before)%nat with (S (S (List.length before))).
    cbn [nth_error]. split.
    + intros ev Hnth. exact (write_entries_nth _ _ _ _ H 1%Z ev Hnth).
    + intros Hbefore.
      destruct (write_entries_app file_path before (entry :: after) Hbefore 1)
        as [lines [Hlines Heq]].
      rewrite Heq. cbn [fst].
      replace (Some k) with (if is_secure_note entry then Some k else None)
        in Hline by now rewrite H.
      fold k. rewrite (write_entries_cons _ _ _ _ _ Hline). cbn [fst].
      rewrite nth_error_app2; rewrite length_map, <- (Forall2_length Hlines);
        [|apply le_n].
      now rewrite Nat.sub_diag.
Qed.

(** C7. The output file of a run of [to_google_csv] that returns begins
    with the header line [name,url,username,password,note] and then holds
    exactly one line for every entry, the line of that entry, in the order of
    the entries. *)
Theorem to_google_csv_file (w : world) (entries : list PasswordEntry)
  (file_path : string) :
  let run := to_google_csv w entries file_path in
  snd run = Ok tt ->
  exists lines,
    fst run = Open file_path Writing :: Write file_path header_line
                :: map (Write file_path) lines
    /\ header_line = "name,url,username,password,note" ++ lineterminator
    /\ file_text file_path (fst run) = Some (header_line ++ text_of lines)
    /\ List.length lines = List.length entries
    /\ Forall2 (fun entry line => exists k, row_line entry k = Ok line)
               entries lines.
Proof.
  intros run Hrun. subst run.
  destruct (open_for_writing w file_path) as [[]|e] eqn:Hopen.
  2:{ exfalso. unfold to_google_csv, io_bind, lift in Hrun.
      cbn [fst snd] in Hrun. rewrite Hopen in Hrun. discriminate Hrun. }
  rewrite (to_google_csv_opened _ _ _ Hopen) in Hrun.
  rewrite (to_google_csv_opened _ _ _ Hopen). cbn [fst snd] in *.
  destruct (write_entries_outcome file_path entries 1)
    as (lines & Hl & Hrows & Hend).
  rewrite Hrun in Hend. exists lines. rewrite Hl.
  split; [reflexivity|]. split; [reflexivity|].
  split; [|split; [exact Hend|]].
  - unfold file_text. cbn [fold_left file_step].
    rewrite String.eqb_refl. cbn [option_map].
    now rewrite file_text_writes.
  - rewrite Hend, firstn_all in Hrows. exact Hrows.
Qed.

(** ** [from_json] *)


(** C9. An item whose type is not the Login type (1), an identity or of any
    other type, can only give an entry with empty [login_uri],
    [login_username] and [login_password], whatever login data it holds.  The
    writer takes such an entry for a secure note: its row has the fixed URL,
    the password [secure_note_password] and the username made of the name and
    [ - row:k] for the current counter value [k], and the counter moves by
    one.  The item does give an entry, unless it is of the Identity type with
    an [identity] that is not an object. *)
Theorem non_login_item_is_secure_note (fields : list (string * value)) :
  eq_int (dict_get fields "type" PyNone) 1 = false ->
  (forall entry,
      entry_of_item (PyDict fields) = Ok entry ->
      name entry = dict_get fields "name" (PyStr "")
      /\ login_uri entry = PyStr ""
      /\ login_username entry = PyStr ""
      /\ login_password entry = PyStr ""
      /\ is_secure_note entry = true
      /\ (forall k,
            to_google_format entry (Some k) =
            Ok [("name", name entry);
                ("url", PyStr "https://mybitwardensecurenotesdonotdelete.com");
                ("username", PyStr (str (name entry) ++ " - row:" ++ str_of_int k));
                ("password", PyStr "secure_note_password");
                ("note", notes entry)])
      /\ (forall file_path rest k,
            exists line,
              row_line entry (Some k) = Ok line
              /\ write_entries file_path (entry :: rest) k =
                 (Write file_path line
                    :: fst (write_entries file_path rest (k + 1)),
                  snd (write_entries file_path rest (k + 1)))))
  /\ ((eq_int (dict_get fields "type" PyNone) 4 = true ->
       exists identity,
         dict_get fields "identity" (PyDict []) = PyDict identity) ->
      exists entry, entry_of_item (PyDict fields) = Ok entry).
Proof.
  intros Htype.
  assert (Hshape : forall entry,
             entry_of_item (PyDict fields) = Ok entry ->
             name entry = dict_get fields "name" (PyStr "")
             /\ login_uri entry = PyStr ""
             /\ login_username entry = PyStr ""
             /\ login_password entry = PyStr "").
  { intros entry. unfold entry_of_item. cbn [get bind]. rewrite Htype.
    destruct (eq_int (dict_get fields "type" PyNone) 4).
    - destruct (dict_get fields "identity" (PyDict [])); cbn [get bind];
        try discriminate.
      intros [= <-]. now cbn.
    - intros [= <-]. now cbn. }
  split.
  - intros entry Hentry.
    destruct (Hshape entry Hentry) as (Hname & Huri & Huser & Hpass).
    assert (Hsecure : is_secure_note entry = true).
    { unfold is_secure_note. now rewrite Huri, Huser. }
    repeat split; try assumption.
    + intros k.
      rewrite (to_google_format_ok entry (Some k) _
                 (secure_note_writable entry Hsecure)).
      now rewrite Huser, Hpass.
    + intros file_path rest k.
      pose proof (row_line_secure_note entry k Hsecure) as Hline.
      eexists. split; [exact Hline|].
      replace (Some k) with (if is_secure_note entry then Some k else None)
        in Hline by now rewrite Hsecure.
      rewrite (write_entries_cons _ _ _ _ _ Hline). now rewrite Hsecure.
  - intros Hid. unfold entry_of_item. cbn [get bind]. rewrite Htype.
    destruct (eq_int (dict_get fields "type" PyNone) 4).
    + destruct (Hid eq_refl) as [identity ->]. cbn [get bind]. eauto.
    + eauto.
Qed.

(** ** [from_csv] and [main] *)

Lemma lookup_set_item_none (d : list (string * value)) (key k : string) :
  (forall v, lookup k d = Some v -> v = PyNone) ->
  forall v, lookup k (set_item d key PyNone) = Some v -> v = PyNone.
Proof.
  induction d as [|[k' v'] d IH]; cbn; intros H v.
  - destruct (key =? k); [now intros [= <-] | discriminate].
  - destruct (k' =? key) eqn:E; cbn.
    + apply String.eqb_eq in E. subst k'.
      destruct (key =? k); [now intros [= <-] | exact (H v)].
    + destruct (k' =? k); [exact (H v)|]. apply IH. exact H.
Qed.

Lemma lookup_fold_none (keys : list string) (k : string) :
  forall d : list (string * value),
    (forall v, lookup k d = Some v -> v = PyNone) ->
    forall v,
      lookup k (fold_left (fun d key => set_item d key PyNone) keys d) = Some v ->
      v = PyNone.
Proof.
  induction keys as [|key keys IH]; intros d Hd; [exact Hd|].
  cbn [fold_left]. apply IH. now apply lookup_set_item_none.
Qed.

(** A record without fields gives a [dict] that holds nothing but [None]. *)
Lemma row_dict_nil (names : list string) (k : string) (v : value) :
  lookup k (row_dict names []) = Some v -> v = PyNone.
Proof.
  unfold row_dict, zip_dict.
  replace (combine names []) with (@nil (string * string))
    by now destruct names.
  cbn [fold_left List.length skipn].
  apply lookup_fold_none. discriminate.
Qed.

(** The entry of a row named Foo with nothing else in it, mapped and
    written with the counter at 1. *)
Lemma foo_entry_written (file_path : string) (uri username password note : value) :
  blank uri -> blank username -> blank password -> blank note ->
  let entry := {| name := PyStr "Foo"; login_uri := uri;
                  login_username := username; login_password := password;
                  notes := note |} in
  to_google_format entry (Some 1%Z) =
  Ok [("name", PyStr "Foo");
      ("url", PyStr "https://mybitwardensecurenotesdonotdelete.com");
      ("username", PyStr "Foo - row:1");
      ("password", PyStr "secure_note_password");
      ("note", note)]
  /\ write_entries file_path [entry] 1 =
     ([Write file_path
         ("Foo,https://mybitwardensecurenotesdonotdelete.com,Foo - row:1,secure_note_password,"
          ++ lineterminator)],
      Ok tt).
Proof.
  intros [-> | ->] [-> | ->] [-> | ->] [-> | ->]; split; reflexivity.
Qed.

(** C5. A CSV input of one data row whose name is Foo and whose other fields
    are empty goes through [main] to an output of a header and one data row:
    the URL is the fixed URL of notes-only entries, the password is
    [secure_note_password] and the username is [Foo - row:1]. *)
Theorem csv_secure_note_round_trip (w : world) (args : arguments)
  (header row : list string) :
  lower (path_suffix (input args)) = ".csv" ->
  open_for_reading w (input args) = Ok tt ->
  csv_records w (input args) = Ok [header; row] ->
  dict_get (row_dict header row) "name" (PyStr "") = PyStr "Foo" ->
  blank (dict_get (row_dict header row) "login_uri" (PyStr "")) ->
  blank (dict_get (row_dict header row) "login_username" (PyStr "")) ->
  blank (dict_get (row_dict header row) "login_password" (PyStr "")) ->
  blank (dict_get (row_dict header row) "notes" (PyStr "")) ->
  open_for_writing w (output args) = Ok tt ->
  let data_line :=
    "Foo,https://mybitwardensecurenotesdonotdelete.com,Foo - row:1,secure_note_password,"
    ++ lineterminator in
  (exists entry,
      from_csv w (input args) = ([Open (input args) Reading], Ok [entry])
      /\ to_google_format entry (Some 1%Z) =
         Ok [("name", PyStr "Foo");
             ("url", PyStr "https://mybitwardensecurenotesdonotdelete.com");
             ("username", PyStr "Foo - row:1");
             ("password", PyStr "secure_note_password");
             ("note", notes entry)]
      /\ blank (notes entry))
  /\ main w args =
     ([Open (input args) Reading;
       Open (output args) Writing;
       Write (output args) header_line;
       Write (output args) data_line;
       Print ("Google CSV file saved as " ++ path_str (output args) ++ ".")],
      Ok tt)
  /\ file_text (output args) (fst (main w args))
     = Some (header_line ++ data_line).
Proof.
  intros Hext Hread Hrecords Hname Huri Huser Hpass Hnotes Hwrite data_line.
  assert (Hrow : is_blank row = false).
  { destruct row; [|reflexivity]. exfalso.
    unfold dict_get in Hname.
    destruct (lookup "name" (row_dict header [])) as [v|] eqn:E;
      [|discriminate].
    apply row_dict_nil in E. now subst v. }
  assert (Hcsv : from_csv w (input args)
                 = ([Open (input args) Reading],
                    Ok [entry_of_row (row_dict header row)])).
  { unfold from_csv, io_bind, lift, emit, ret. cbn [fst snd].
    rewrite Hread, Hrecords. cbn [fst snd DictReader filter map app].
    now rewrite Hrow. }
  assert (Hentry : exists uri username password note,
             entry_of_row (row_dict header row)
             = {| name := PyStr "Foo"; login_uri := uri;
                  login_username := username; login_password := password;
                  notes := note |}
             /\ blank uri /\ blank username /\ blank password /\ blank note).
  { unfold entry_of_row. rewrite Hname. eauto 10. }
  destruct Hentry as (uri & username & password & note & Hentry & Hb).
  rewrite Hentry in Hcsv.
  assert (Hmain : main w args =
            (entries <~ from_csv w (input args) ;;
             _ <~ to_google_csv w entries (output args) ;;
             emit (Print ("Google CSV file saved as "
                            ++ path_str (output args) ++ ".")))).
  { unfold main. now rewrite Hext. }
  destruct (foo_entry_written (output args) uri username password note)
    as [Hformat Hloop]; try tauto.
  assert (Hrun : main w args =
            ([Open (input args) Reading;
              Open (output args) Writing;
              Write (output args) header_line;
              Write (output args) data_line;
              Print ("Google CSV file saved as "
                       ++ path_str (output args) ++ ".")],
             Ok tt)).
  { rewrite Hmain, Hcsv. unfold io_bind at 1. cbn [fst snd].
    rewrite (to_google_csv_opened _ _ _ Hwrite), Hloop.
    reflexivity. }
  split; [|split].
  - eexists. split; [exact Hcsv|]. split; [exact Hformat | cbn; tauto].
  - exact Hrun.
  - rewrite Hrun. unfold file_text.
    cbn [fst fold_left file_step]. rewrite String.eqb_refl.
    reflexivity.
Qed.

(** C8. The extension of the input path, in lower case, alone selects the
    reader.  When it is neither [.csv] nor [.json], [main] raises a
    [ValueError] that says so with no effect at all before it: no file is
    opened, read or written, so no output file exists.  Otherwise the entries
    come from [from_csv] for [.csv] and from [from_json] for [.json]. *)
Theorem main_extension (w : world) (args : arguments) :
  let file_extension := lower (path_suffix (input args)) in
  let convert (entries : io (list PasswordEntry)) : io unit :=
    entries <~ entries ;;
    _ <~ to_google_csv w entries (output args) ;;
    emit (Print ("Google CSV file saved as " ++ path_str (output args) ++ ".")) in
  (file_extension <> ".csv" -> file_extension <> ".json" ->
     main w args =
     ([], Raise (ValueError
                   "Unsupported file format. Please provide a CSV or JSON file."))
     /\ forall file_path, file_text file_path (fst (main w args)) = None)
  /\ (file_extension = ".csv" ->
      main w args = convert (from_csv w (input args)))
  /\ (file_extension = ".json" ->
      main w args = convert (from_json w (input args))).
Proof.
  intros file_extension convert. unfold main. fold file_extension.
  split; [|split].
  - intros Hcsv Hjson.
    apply String.eqb_neq in Hcsv, Hjson. rewrite Hcsv, Hjson.
    split; [reflexivity | intros file_path; reflexivity].
  - intros ->. reflexivity.
  - intros ->. reflexivity.
Qed.

(* ================================================================== *)
(** * Further properties of the script *)
(* ================================================================== *)

(** ** Login items of [from_json] *)

(** X1.  A Login item (type 1) whose login object lists URIs gives an entry with
    the [uri] of the first of them, the others being dropped, the username
    and the password of the login object and the name and the notes of the
    item, an absent key reading as the empty text. *)
Theorem login_item_entry (fields login first : list (string * value))
  (others : list value) (uri : value) :
  eq_int (dict_get fields "type" PyNone) 1 = true ->
  dict_get fields "login" (PyDict []) = PyDict login ->
  dict_get login "uris" (PyList []) = PyList (PyDict first :: others) ->
  lookup "uri" first = Some uri ->
  entry_of_item (PyDict fields) =
  Ok {| name := dict_get fields "name" (PyStr "");
        login_uri := uri;
        login_username := dict_get login "username" (PyStr "");
        login_password := dict_get login "password" (PyStr "");
        notes := dict_get fields "notes" (PyStr "") |}.
Proof.
  intros Htype Hlogin Huris Huri.
  unfold entry_of_item. cbn [get bind]. rewrite Htype, Hlogin.
  cbn [get bind]. rewrite Huris. cbn [truthy getitem0 bind getitem].
  now rewrite Huri.
Qed.

(** X2.  A Login item without URIs (no [uris] key, an empty list, a [null])
    gives an entry with an empty [login_uri] and the username and the
    password of the login object, so its row gets the fixed URL of notes-only
    entries; without a login object at all the URI, the username and the
    password are all empty, and the writer takes the entry for a secure
    note. *)
Theorem login_item_without_uris (fields : list (string * value)) :
  eq_int (dict_get fields "type" PyNone) 1 = true ->
  (forall login,
      dict_get fields "login" (PyDict []) = PyDict login ->
      truthy (dict_get login "uris" (PyList [])) = false ->
      exists entry,
        entry_of_item (PyDict fields) = Ok entry
        /\ entry = {| name := dict_get fields "name" (PyStr "");
                      login_uri := PyStr "";
                      login_username := dict_get login "username" (PyStr "");
                      login_password := dict_get login "password" (PyStr "");
                      notes := dict_get fields "notes" (PyStr "") |}
        /\ format_uri entry = Ok "https://mybitwardensecurenotesdonotdelete.com")
  /\ (lookup "login" fields = None ->
      exists entry,
        entry_of_item (PyDict fields) = Ok entry
        /\ entry = {| name := dict_get fields "name" (PyStr "");
                      login_uri := PyStr "";
                      login_username := PyStr "";
                      login_password := PyStr "";
                      notes := dict_get fields "notes" (PyStr "") |}
        /\ is_secure_note entry = true).
Proof.
  intros Htype. split.
  - intros login Hlogin Huris.
    exists {| name := dict_get fields "name" (PyStr "");
              login_uri := PyStr "";
              login_username := dict_get login "username" (PyStr "");
              login_password := dict_get login "password" (PyStr "");
              notes := dict_get fields "notes" (PyStr "") |}.
    split; [|split; reflexivity].
    unfold entry_of_item. cbn [get bind]. rewrite Htype, Hlogin.
    cbn [get bind]. now rewrite Huris.
  - intros Habsent.
    exists {| name := dict_get fields "name" (PyStr "");
              login_uri := PyStr "";
              login_username := PyStr "";
              login_password := PyStr "";
              notes := dict_get fields "notes" (PyStr "") |}.
    split; [|split; reflexivity].
    assert (Hlogin : dict_get fields "login" (PyDict []) = PyDict [])
      by (unfold dict_get; now rewrite Habsent).
    unfold entry_of_item. cbn [get bind]. rewrite Htype, Hlogin.
    reflexivity.
Qed.

(** X3.  What a Login item must hold: a [login] that is not an object raises
    [AttributeError]; a first URI that is not an object raises [TypeError],
    and one without the key [uri] raises [KeyError]. *)
Theorem login_item_errors (fields : list (string * value)) :
  eq_int (dict_get fields "type" PyNone) 1 = true ->
  ((forall d, dict_get fields "login" (PyDict []) <> PyDict d) ->
   entry_of_item (PyDict fields) = Raise AttributeError)
  /\ (forall login first others,
        dict_get fields "login" (PyDict []) = PyDict login ->
        dict_get login "uris" (PyList []) = PyList (first :: others) ->
        ((forall d, first <> PyDict d) ->
         entry_of_item (PyDict fields) = Raise TypeError)
        /\ (forall d, first = PyDict d -> lookup "uri" d = None ->
                      entry_of_item (PyDict fields) = Raise KeyError)).
Proof.
  intros Htype. split.
  - intros Hlogin. unfold entry_of_item. cbn [get bind]. rewrite Htype.
    destruct (dict_get fields "login" (PyDict [])) as [| | | | |d];
      try reflexivity.
    now destruct (Hlogin d).
  - intros login first others Hlogin Huris. split.
    + intros Hfirst. unfold entry_of_item. cbn [get bind].
      rewrite Htype, Hlogin. cbn [get bind]. rewrite Huris.
      cbn [truthy getitem0 bind].
      destruct first as [| | | | |d]; try reflexivity.
      now destruct (Hfirst d).
    + intros d -> Huri. unfold entry_of_item. cbn [get bind].
      rewrite Htype, Hlogin. cbn [get bind]. rewrite Huris.
      cbn [truthy getitem0 bind getitem]. now rewrite Huri.
Qed.

(** ** The document of [from_json] *)

(** X4.  [from_json] gives one entry for each item, in the order of the items; the
    first item that cannot be read ends the reading with its exception, and
    no entry is returned at all. *)
Theorem entries_of_items_each (items : list value) :
  (forall entries,
      entries_of_items items = Ok entries <->
      Forall2 (fun item entry => entry_of_item item = Ok entry) items entries)
  /\ (forall good bad rest e,
        items = (good ++ bad :: rest)%list ->
        Forall (fun item => exists entry, entry_of_item item = Ok entry) good ->
        entry_of_item bad = Raise e ->
        entries_of_items items = Raise e).
Proof.
  split.
  - induction items as [|item items IH]; intros entries; cbn [entries_of_items].
    + split; [intros [= <-]; constructor | intros H; now inversion H].
    + destruct (entry_of_item item) as [entry|e] eqn:Hitem; cbn [bind].
      * destruct (entries_of_items items) as [rest|e]; cbn [bind].
        -- split.
           ++ intros [= <-]. constructor; [exact Hitem | now apply IH].
           ++ intros H. inversion H as [|? entry' ? tl Hhead Htail]; subst.
              rewrite Hitem in Hhead. injection Hhead as <-.
              apply IH in Htail. now injection Htail as <-.
        -- split; [discriminate|].
           intros H. inversion H as [|? ? ? tl _ Htail]; subst.
           apply IH in Htail. discriminate Htail.
      * split; [discriminate|].
        intros H. inversion H as [|? ? ? tl Hhead _]; subst.
        rewrite Hitem in Hhead. discriminate Hhead.
  - intros good bad rest e -> Hgood Hbad.
    induction Hgood as [|item good [entry Hentry] _ IH]; cbn [app entries_of_items].
    + now rewrite Hbad.
    + rewrite Hentry. cbn [bind]. now rewrite IH.
Qed.

(** X5.  [from_json] on a file that cannot be opened raises with no effect; on a
    document that is not an object it raises [TypeError], on an object
    without [items] it raises [KeyError], and on [items] that are neither a
    list, an object nor a text it raises [TypeError]: each time after the
    opening of the file and nothing else. *)
Theorem from_json_document (w : world) (file_path : string) :
  (forall e, open_for_reading w file_path = Raise e ->
             from_json w file_path = ([], Raise e))
  /\ (open_for_reading w file_path = Ok tt ->
      (forall e, json_document w file_path = Raise e ->
                 from_json w file_path = ([Open file_path Reading], Raise e))
      /\ (forall data,
            json_document w file_path = Ok data ->
            (forall d, data <> PyDict d) ->
            from_json w file_path = ([Open file_path Reading], Raise TypeError))
      /\ (forall d,
            json_document w file_path = Ok (PyDict d) ->
            lookup "items" d = None ->
            from_json w file_path = ([Open file_path Reading], Raise KeyError))
      /\ (forall d items,
            json_document w file_path = Ok (PyDict d) ->
            lookup "items" d = Some items ->
            (items = PyNone \/ (exists b, items = PyBool b)
             \/ (exists n, items = PyInt n)) ->
            from_json w file_path = ([Open file_path Reading], Raise TypeError))
      /\ (forall d items,
            json_document w file_path = Ok (PyDict d) ->
            lookup "items" d = Some (PyList items) ->
            from_json w file_path
            = ([Open file_path Reading], entries_of_items items))).
Proof.
  split.
  - intros e H. unfold from_json, io_bind, lift. cbn [fst snd]. now rewrite H.
  - intros Hopen.
    assert (Hstart : from_json w file_path =
              (Open file_path Reading
                 :: fst (data <~ lift (json_document w file_path) ;;
                         items <~ lift (getitem data "items") ;;
                         elements <~ lift (iter items) ;;
                         lift (entries_of_items elements)),
               snd (data <~ lift (json_document w file_path) ;;
                    items <~ lift (getitem data "items") ;;
                    elements <~ lift (iter items) ;;
                    lift (entries_of_items elements)))).
    { unfold from_json. unfold io_bind at 1, lift at 1. cbn [fst snd].
      rewrite Hopen. unfold io_bind at 1, emit. cbn [fst snd app].
      reflexivity. }
    rewrite Hstart. unfold io_bind, lift. cbn [fst snd].
    repeat split.
    + intros e H. now rewrite H.
    + intros data H Hshape. rewrite H. cbn [fst snd app].
      destruct data as [| | | | |d]; try reflexivity.
      now destruct (Hshape d).
    + intros d H Hitems. rewrite H. cbn [fst snd app getitem].
      now rewrite Hitems.
    + intros d items H Hitems Hkind. rewrite H. cbn [fst snd app getitem].
      rewrite Hitems. cbn [fst snd app].
      destruct Hkind as [-> | [[b ->] | [n ->]]]; reflexivity.
    + intros d items H Hitems. rewrite H. cbn [fst snd app getitem].
      rewrite Hitems. cbn [fst snd app iter].
      now destruct (entries_of_items items).
Qed.

Lemma from_json_items (w : world) (file_path : string)
  (d : list (string * value)) (items : value) :
  open_for_reading w file_path = Ok tt ->
  json_document w file_path = Ok (PyDict d) ->
  lookup "items" d = Some items ->
  from_json w file_path
  = ([Open file_path Reading],
     elements <- iter items ;; entries_of_items elements).
Proof.
  intros Hopen Hdoc Hitems.
  unfold from_json, io_bind, lift, emit. cbn [fst snd].
  rewrite Hopen. cbn [fst snd app]. rewrite Hdoc. cbn [fst snd app getitem].
  rewrite Hitems. cbn [fst snd app].
  destruct (iter items) as [elements|e]; cbn [fst snd app bind];
    [|reflexivity].
  now destruct (entries_of_items elements).
Qed.

(** X6.  [items] that are an object or a text instead of a list: the loop then
    runs over the keys or over the characters, each of them a text without a
    [get] method, so the first raises [AttributeError]; an empty object or
    text gives no entry and no error. *)
Theorem from_json_items_not_list (w : world) (file_path : string)
  (d : list (string * value)) (items : value) :
  open_for_reading w file_path = Ok tt ->
  json_document w file_path = Ok (PyDict d) ->
  lookup "items" d = Some items ->
  (exists fields, items = PyDict fields) \/ (exists s, items = PyStr s) ->
  from_json w file_path
  = ([Open file_path Reading],
     if truthy items then Raise AttributeError else Ok []).
Proof.
  intros Hopen Hdoc Hitems Hkind.
  rewrite (from_json_items w file_path d items Hopen Hdoc Hitems).
  destruct Hkind as [[fields ->] | [s ->]].
  - destruct fields as [|[k v] fields]; reflexivity.
  - destruct s as [|c s]; reflexivity.
Qed.

(** ** More of [format_uri] *)

Lemma contains_char_app (c : ascii) (a b : string) :
  contains (String c "") (a ++ b)
  = contains (String c "") a || contains (String c "") b.
Proof.
  induction a as [|x a IH]; [reflexivity|].
  cbn [append contains startswith]. now rewrite IH, orb_assoc.
Qed.

Lemma split_without_sep (sep : ascii) (s : string) :
  contains (String sep "") s = false -> split sep s = [s].
Proof.
  induction s as [|c s IH]; intros H; [reflexivity|].
  cbn [contains startswith] in H. apply orb_false_iff in H as [Hc Hs].
  rewrite andb_true_r in Hc. cbn [split].
  rewrite Ascii.eqb_sym, Hc, (IH Hs). reflexivity.
Qed.

Lemma split_app (sep : ascii) (a b : string) :
  contains (String sep "") a = false ->
  split sep (a ++ String sep b) = a :: split sep b.
Proof.
  induction a as [|c a IH]; intros H.
  - cbn [append split]. now rewrite Ascii.eqb_refl.
  - cbn [contains startswith] in H. apply orb_false_iff in H as [Hc Hs].
    rewrite andb_true_r in Hc. cbn [append split].
    rewrite Ascii.eqb_sym, Hc, (IH Hs). reflexivity.
Qed.

(** X7.  [format_uri] on a [login_uri] that is not a text, as a JSON export can
    hold one: an empty value ([None], [False], 0, an empty list or object)
    counts as no URI and gives the fixed URL; any other value has no [split]
    method and raises [AttributeError], which [to_google_format] passes
    on. *)
Theorem format_uri_not_text (self : PasswordEntry) :
  (forall s, login_uri self <> PyStr s) ->
  (truthy (login_uri self) = false ->
   format_uri self = Ok "https://mybitwardensecurenotesdonotdelete.com")
  /\ (truthy (login_uri self) = true ->
      format_uri self = Raise AttributeError
      /\ forall c, to_google_format self c = Raise AttributeError).
Proof.
  intros Hshape. split; intros H.
  - unfold format_uri. now rewrite H.
  - assert (Hf : format_uri self = Raise AttributeError).
    { unfold format_uri. rewrite H. cbn [negb].
      destruct (login_uri self) as [| | |s| |]; try reflexivity.
      now destruct (Hshape s). }
    split; [exact Hf|]. intros c. unfold to_google_format. now rewrite Hf.
Qed.

(** X8.  An Android package alone: a [login_uri] that is [androidapp://] followed
    by a text without a comma matches no rule, whatever dots it holds, and
    comes back with [android://@] in the place of the prefix. *)
Theorem format_uri_android_package (self : PasswordEntry) (package : string) :
  login_uri self = PyStr ("androidapp://" ++ package) ->
  contains "," package = false ->
  format_uri self
  = Ok ("android://@" ++ replace package "androidapp://" "android://@")
  /\ (contains "androidapp://" package = false ->
      format_uri self = Ok ("android://@" ++ package)).
Proof.
  intros Huri Hcomma.
  assert (Hne : "androidapp://" ++ package <> "") by (cbn; discriminate).
  assert (Hsplit : split "," ("androidapp://" ++ package)
                   = ["androidapp://" ++ package]).
  { apply split_without_sep. now rewrite contains_char_app, Hcomma. }
  assert (H1 : startswith ("androidapp://" ++ package) "http://" = false)
    by reflexivity.
  assert (H2 : startswith ("androidapp://" ++ package) "https://" = false)
    by reflexivity.
  assert (H3 : startswith ("androidapp://" ++ package) "androidapp://" = true)
    by reflexivity.
  assert (Hrun : format_uri self
                 = Ok ("android://@"
                         ++ replace package "androidapp://" "android://@")).
  { rewrite (format_uri_text self _ Huri Hne), Hsplit.
    cbn [format_uri_loop]. rewrite H1, H2, H3, andb_false_r. cbn [orb].
    exact (f_equal Ok (replace_at_head "a"%char "ndroidapp://" "android://@" package)). }
  split; [exact Hrun|].
  intros Habsent. rewrite Hrun, replace_absent; [reflexivity | discriminate | exact Habsent].
Qed.

(** X9.  An Android package and a bare domain, in either order: only the domain
    is used, as the comment in the code says. *)
Theorem format_uri_android_and_domain (self : PasswordEntry)
  (package domain : string) :
  contains "," package = false -> contains "," domain = false ->
  dot_rule domain -> ~ scheme_rule domain ->
  login_uri self = PyStr ("androidapp://" ++ package ++ "," ++ domain)
  \/ login_uri self = PyStr (domain ++ "," ++ "androidapp://" ++ package) ->
  format_uri self = Ok ("https://" ++ strip domain).
Proof.
  intros Hp Hd Hdot Hscheme Huri.
  apply dot_rule_iff in Hdot.
  rewrite <- scheme_rule_iff in Hscheme. apply not_true_is_false in Hscheme.
  assert (Hdomain : forall rest,
             format_uri_loop (domain :: rest)
             = Some (Ok ("https://" ++ strip domain))).
  { intros rest. cbn [format_uri_loop]. now rewrite Hscheme, Hdot. }
  assert (H1 : startswith ("androidapp://" ++ package) "http://" = false)
    by reflexivity.
  assert (H2 : startswith ("androidapp://" ++ package) "https://" = false)
    by reflexivity.
  assert (H3 : startswith ("androidapp://" ++ package) "androidapp://" = true)
    by reflexivity.
  destruct Huri as [Huri | Huri].
  - rewrite (format_uri_text self _ Huri) by (cbn; discriminate).
    replace ("androidapp://" ++ package ++ "," ++ domain)
      with (("androidapp://" ++ package) ++ String "," domain)
      by (rewrite append_append; reflexivity).
    rewrite split_app by (now rewrite contains_char_app, Hp).
    cbn [format_uri_loop]. rewrite H1, H2, H3, andb_false_r. cbn [orb].
    rewrite (split_without_sep _ _ Hd).
    cbn [format_uri_loop]. now rewrite Hscheme, Hdot.
  - rewrite (format_uri_text self _ Huri) by (destruct domain; cbn; discriminate).
    change (domain ++ "," ++ "androidapp://" ++ package)
      with (domain ++ String "," ("androidapp://" ++ package)).
    rewrite (split_app _ _ _ Hd). now rewrite Hdomain.
Qed.

(** ** More of [to_google_format] and of the writer *)

(** X10.  An entry with a username and no URI is no secure note: it is mapped
    without a counter, gets the fixed URL, keeps its username, and leaves the
    counter of the writer as it is. *)
Theorem username_without_uri (self : PasswordEntry) :
  truthy (login_uri self) = false -> truthy (login_username self) = true ->
  let row := [("name", name self);
              ("url", PyStr "https://mybitwardensecurenotesdonotdelete.com");
              ("username", login_username self);
              ("password",
                if truthy (login_password self) then login_password self
                else PyStr "secure_note_password");
              ("note", notes self)] in
  is_secure_note self = false
  /\ (forall c, to_google_format self c = Ok row)
  /\ (forall file_path rest c,
        write_entries file_path (self :: rest) c =
        (Write file_path (writerow (map snd row))
           :: fst (write_entries file_path rest c),
         snd (write_entries file_path rest c))).
Proof.
  intros Huri Huser row.
  assert (Hnote : is_secure_note self = false).
  { unfold is_secure_note. rewrite Huser. apply andb_false_r. }
  assert (Hurl : format_uri self
                 = Ok "https://mybitwardensecurenotesdonotdelete.com").
  { unfold format_uri. now rewrite Huri. }
  assert (Hrow : forall c, to_google_format self c = Ok row).
  { intros c. rewrite (to_google_format_ok self c _ Hurl), Huser. reflexivity. }
  split; [exact Hnote|]. split; [exact Hrow|].
  intros file_path rest c.
  assert (Hline : row_line self (if is_secure_note self then Some c else None)
                  = Ok (writerow (map snd row))).
  { unfold row_line. rewrite Hrow. reflexivity. }
  rewrite (write_entries_cons _ _ _ _ _ Hline), Hnote. reflexivity.
Qed.

Lemma truthy_or_empty (v : value) : truthy (or_empty v) = truthy v.
Proof. now destruct v. Qed.

Lemma field_text_or_empty (v : value) : field_text (or_empty v) = field_text v.
Proof. now destruct v. Qed.

Lemma field_text_or_empty_else (v other : value) :
  field_text (if truthy (or_empty v) then or_empty v else other)
  = field_text (if truthy v then v else other).
Proof. now destruct v. Qed.

(** X11.  A [None] in the URI, the username, the password or the notes of an
    entry, which [DictReader] gives for a row shorter than the header and
    [json.load] for a [null], is written exactly as the empty text: the
    entry is a secure note or not, and its line is the same.  (The name is
    another matter: [None] as a name shows in the synthesised username.) *)
Theorem none_as_empty (self : PasswordEntry) (c : option Z) :
  let filled := {| name := name self;
                   login_uri := or_empty (login_uri self);
                   login_username := or_empty (login_username self);
                   login_password := or_empty (login_password self);
                   notes := or_empty (notes self) |} in
  is_secure_note filled = is_secure_note self
  /\ row_line filled c = row_line self c.
Proof.
  intros filled. split.
  - unfold is_secure_note, filled. cbn [login_uri login_username].
    now rewrite !truthy_or_empty.
  - assert (Hurl : format_uri filled = format_uri self).
    { unfold format_uri, filled. cbn [login_uri].
      destruct (login_uri self); reflexivity. }
    unfold row_line, to_google_format. rewrite Hurl.
    destruct (format_uri self) as [url|e]; [|reflexivity]. cbn [bind].
    rewrite !DictWriter_writerow_fields. f_equal.
    unfold writerow, filled. cbn [map name login_username login_password notes].
    now rewrite !field_text_or_empty_else, field_text_or_empty.
Qed.

(** ** The effects of a run *)

Lemma from_csv_effects (w : world) (file_path : string) :
  Forall is_read (fst (from_csv w file_path)).
Proof.
  unfold from_csv, io_bind, lift, emit, ret. cbn [fst snd].
  destruct (open_for_reading w file_path) as [[]|e]; cbn [fst snd app];
    [|constructor].
  destruct (csv_records w file_path); cbn [fst snd app];
    repeat constructor; now exists file_path.
Qed.

Lemma from_json_effects (w : world) (file_path : string) :
  Forall is_read (fst (from_json w file_path)).
Proof.
  unfold from_json, io_bind, lift, emit. cbn [fst snd].
  destruct (open_for_reading w file_path) as [[]|e]; cbn [fst snd app];
    [|constructor].
  destruct (json_document w file_path) as [data|e]; cbn [fst snd app];
    [|repeat constructor; now exists file_path].
  destruct (getitem data "items") as [items|e]; cbn [fst snd app];
    [|repeat constructor; now exists file_path].
  destruct (iter items) as [elements|e]; cbn [fst snd app];
    [|repeat constructor; now exists file_path].
  destruct (entries_of_items elements); cbn [fst snd app];
    repeat constructor; now exists file_path.
Qed.

Lemma to_google_csv_on_file (w : world) (entries : list PasswordEntry)
  (file_path : string) :
  Forall (on_file file_path) (fst (to_google_csv w entries file_path)).
Proof.
  destruct (open_for_writing w file_path) as [[]|e] eqn:Hopen.
  - rewrite (to_google_csv_opened _ _ _ Hopen). cbn [fst].
    destruct (write_entries_outcome file_path entries 1) as (lines & -> & _).
    constructor; [now left|]. constructor; [right; eauto|].
    apply Forall_forall. intros ev Hin.
    apply in_map_iff in Hin as [line [<- _]]. right. eauto.
  - unfold to_google_csv, io_bind, lift. cbn [fst snd]. rewrite Hopen. constructor.
Qed.

Lemma file_text_reads (path : string) (trace : list event) :
  Forall is_read trace ->
  forall acc, fold_left (file_step path) trace acc = acc.
Proof.
  induction 1 as [|ev trace [p ->] _ IH]; intros acc; [reflexivity|].
  cbn [fold_left file_step]. apply IH.
Qed.

(** [main] is one of the two readers, or the refusal of the extension,
    followed by the writer and the message. *)
Lemma main_reader (w : world) (args : arguments) :
  exists reader : io (list PasswordEntry),
    Forall is_read (fst reader)
    /\ main w args =
       (entries <~ reader ;;
        _ <~ to_google_csv w entries (output args) ;;
        emit (Print ("Google CSV file saved as " ++ path_str (output args) ++ "."))).
Proof.
  unfold main.
  destruct (lower (path_suffix (input args)) =? ".csv").
  - exists (from_csv w (input args)). split; [apply from_csv_effects | reflexivity].
  - destruct (lower (path_suffix (input args)) =? ".json").
    + exists (from_json w (input args)).
      split; [apply from_json_effects | reflexivity].
    + eexists. split; [|reflexivity]. constructor.
Qed.

(** X12.  [to_google_csv] touches its own file only: when the file cannot be
    opened it raises with no effect; otherwise every effect is the opening of
    that file for writing or a write to it.  It reads nothing and prints
    nothing. *)
Theorem to_google_csv_effects (w : world) (entries : list PasswordEntry)
  (file_path : string) :
  (forall e, open_for_writing w file_path = Raise e ->
             to_google_csv w entries file_path = ([], Raise e))
  /\ Forall (on_file file_path) (fst (to_google_csv w entries file_path))
  /\ (forall other, other <> file_path ->
        file_text other (fst (to_google_csv w entries file_path)) = None).
Proof.
  split; [|split].
  - intros e H. unfold to_google_csv, io_bind, lift. cbn [fst snd]. now rewrite H.
  - apply to_google_csv_on_file.
  - intros other Hother. unfold file_text.
    generalize (@None string).
    induction (to_google_csv_on_file w entries file_path)
      as [|ev trace Hev _ IH]; intros acc; [reflexivity|].
    cbn [fold_left].
    assert (Hstep : file_step other acc ev = acc).
    { apply String.eqb_neq in Hother. rewrite String.eqb_sym in Hother.
      destruct Hev as [-> | [text ->]]; cbn [file_step]; now rewrite Hother. }
    rewrite Hstep. apply IH.
Qed.

(** X13.  When the reader raises, whether on the opening of the input, on its
    content or on one of its items, [main] ends with that exception before
    the writer is called: the output file is neither created nor truncated,
    and nothing is printed. *)
Theorem main_stops_at_reader (w : world) (args : arguments) (e : exception) :
  (lower (path_suffix (input args)) = ".csv"
   /\ snd (from_csv w (input args)) = Raise e)
  \/ (lower (path_suffix (input args)) = ".json"
      /\ snd (from_json w (input args)) = Raise e) ->
  snd (main w args) = Raise e
  /\ Forall is_read (fst (main w args))
  /\ forall path, file_text path (fst (main w args)) = None.
Proof.
  intros H.
  assert (Hrun : exists reader : io (list PasswordEntry),
             Forall is_read (fst reader) /\ snd reader = Raise e
             /\ main w args = (fst reader, Raise e)).
  { destruct H as [[Hext Hraise] | [Hext Hraise]].
    - exists (from_csv w (input args)).
      split; [apply from_csv_effects|]. split; [exact Hraise|].
      unfold main. rewrite Hext. cbn [String.eqb Ascii.eqb Bool.eqb].
      unfold io_bind at 1. now rewrite Hraise.
    - exists (from_json w (input args)).
      split; [apply from_json_effects|]. split; [exact Hraise|].
      unfold main. rewrite Hext. cbn [String.eqb Ascii.eqb Bool.eqb].
      unfold io_bind at 1. now rewrite Hraise. }
  destruct Hrun as (reader & Hreads & _ & ->). cbn [fst snd].
  split; [reflexivity|]. split; [exact Hreads|].
  intros path. unfold file_text. now apply file_text_reads.
Qed.

(** X14.  The message is the last thing [main] does, and it is printed on success
    only: the run returns exactly when its last effect is the message, with
    the output file opened before it; a run that raises prints nothing. *)
Theorem main_announces_success (w : world) (args : arguments) :
  let message := "Google CSV file saved as " ++ path_str (output args) ++ "." in
  (snd (main w args) = Ok tt ->
   exists before,
     fst (main w args) = (before ++ [Print message])%list
     /\ In (Open (output args) Writing) before)
  /\ (forall text, In (Print text) (fst (main w args)) ->
        snd (main w args) = Ok tt /\ text = message).
Proof.
  intros message.
  destruct (main_reader w args) as (reader & Hreads & Hmain).
  fold message in Hmain. rewrite Hmain. clear Hmain.
  assert (Hprint : forall text trace, Forall is_read trace ->
             ~ In (Print text) trace).
  { intros text trace Hall Hin. rewrite Forall_forall in Hall.
    destruct (Hall _ Hin) as [p Hp]. discriminate Hp. }
  destruct reader as [read [entries|e]]; cbn [fst] in Hreads;
    unfold io_bind, emit; cbn beta iota delta [fst snd].
  2:{ split; [discriminate|]. intros text Hin. now apply Hprint in Hin. }
  pose proof (to_google_csv_on_file w entries (output args)) as Hwrites.
  assert (Hopened : snd (to_google_csv w entries (output args)) = Ok tt ->
            In (Open (output args) Writing)
               (fst (to_google_csv w entries (output args)))).
  { destruct (open_for_writing w (output args)) as [[]|e] eqn:Hopen.
    - rewrite (to_google_csv_opened _ _ _ Hopen). intros _. now left.
    - unfold to_google_csv, io_bind, lift. cbn [fst snd]. rewrite Hopen.
      discriminate. }
  destruct (to_google_csv w entries (output args)) as [written [[]|e]];
    cbn [fst snd] in *.
  - split.
    + intros _. exists (read ++ written)%list. split.
      * now rewrite app_assoc.
      * apply in_or_app. right. now apply Hopened.
    + intros text Hin. split; [reflexivity|].
      apply in_app_or in Hin as [Hin | Hin]; [now apply Hprint in Hin|].
      apply in_app_or in Hin as [Hin | [[= <-] | []]]; [|reflexivity].
      rewrite Forall_forall in Hwrites.
      destruct (Hwrites _ Hin) as [Hp | [t Hp]]; discriminate Hp.
  - split; [discriminate|]. intros text Hin. exfalso.
    apply in_app_or in Hin as [Hin | Hin]; [now apply Hprint in Hin|].
    rewrite Forall_forall in Hwrites.
    destruct (Hwrites _ Hin) as [Hp | [t Hp]]; discriminate Hp.
Qed.

(** ** The columns of [from_csv] *)

Lemma lookup_set_item_same (d : list (string * value)) (k : string) (v : value) :
  lookup k (set_item d k v) = Some v.
Proof.
  induction d as [|[k' v'] d IH]; cbn [set_item lookup].
  - now rewrite String.eqb_refl.
  - destruct (k' =? k) eqn:E; cbn [lookup].
    + now rewrite String.eqb_refl.
    + now rewrite E.
Qed.

Lemma lookup_set_item_other (d : list (string * value)) (key k : string)
  (v : value) :
  key <> k -> lookup k (set_item d key v) = lookup k d.
Proof.
  intros Hne. apply String.eqb_neq in Hne.
  induction d as [|[k' v'] d IH]; cbn [set_item lookup].
  - now rewrite Hne.
  - destruct (k' =? key) eqn:E; cbn [lookup].
    + apply String.eqb_eq in E. subst k'. now rewrite Hne.
    + now rewrite IH.
Qed.


(** A [dict] filled item by item: a key that is not set keeps its value, a
    key holds the value it was last set to, and every value was there at the
    start or was set. *)
Lemma lookup_fold_other {A : Type} (f : A -> string) (g : A -> value)
  (l : list A) (k : string) :
  (forall a, In a l -> f a <> k) ->
  forall d,
    lookup k (fold_left (fun d a => set_item d (f a) (g a)) l d) = lookup k d.
Proof.
  induction l as [|a l IH]; intros H d; [reflexivity|].
  cbn [fold_left]. rewrite IH by (intros b Hb; apply H; now right).
  apply lookup_set_item_other, H. now left.
Qed.

Lemma lookup_fold_last {A : Type} (f : A -> string) (g : A -> value)
  (before : list A) (a : A) (after : list A) (k : string) :
  f a = k -> (forall b, In b after -> f b <> k) ->
  forall d,
    lookup k (fold_left (fun d a => set_item d (f a) (g a))
                        (before ++ a :: after)%list d)
    = Some (g a).
Proof.
  intros Hk Hafter d. rewrite fold_left_app. cbn [fold_left].
  rewrite (lookup_fold_other f g after k Hafter), Hk.
  apply lookup_set_item_same.
Qed.


Lemma combine_app {A B : Type} (l1 l2 : list A) (r1 r2 : list B) :
  List.length l1 = List.length r1 ->
  combine (l1 ++ l2) (r1 ++ r2) = (combine l1 r1 ++ combine l2 r2)%list.
Proof.
  revert r1; induction l1 as [|x l1 IH]; intros [|y r1] H;
    try discriminate; [reflexivity|].
  cbn [app combine]. f_equal. apply IH. now injection H.
Qed.

Lemma In_skipn {A : Type} (n : nat) (l : list A) (x : A) :
  In x (skipn n l) -> In x l.
Proof.
  intros H. rewrite <- (firstn_skipn n l). apply in_or_app. now right.
Qed.

Lemma lookup_none_other (keys : list string) (k : string)
  (d : list (string * value)) :
  (forall a, In a keys -> a <> k) ->
  lookup k (fold_left (fun d key => set_item d key PyNone) keys d) = lookup k d.
Proof.
  intros H.
  exact (lookup_fold_other (fun key => key) (fun _ => PyNone) keys k H d).
Qed.

Lemma lookup_none_last (before : list string) (k : string) (after : list string)
  (d : list (string * value)) :
  ~ In k after ->
  lookup k (fold_left (fun d key => set_item d key PyNone)
                      (before ++ k :: after)%list d)
  = Some PyNone.
Proof.
  intros H.
  refine (lookup_fold_last (fun key => key) (fun _ => PyNone)
            before k after k eq_refl _ d).
  intros b Hb ->. exact (H Hb).
Qed.

Lemma lookup_zip_other (pairs : list (string * string)) (k : string)
  (d : list (string * value)) :
  (forall a b, In (a, b) pairs -> a <> k) ->
  lookup k (fold_left (fun d kv => set_item d (fst kv) (PyStr (snd kv))) pairs d)
  = lookup k d.
Proof.
  intros H.
  refine (lookup_fold_other (fun kv => fst kv) (fun kv => PyStr (snd kv))
            pairs k _ d).
  intros [a b] Hab. exact (H a b Hab).
Qed.

Lemma lookup_zip_last (before : list (string * string)) (k field : string)
  (after : list (string * string)) (d : list (string * value)) :
  (forall a b, In (a, b) after -> a <> k) ->
  lookup k (fold_left (fun d kv => set_item d (fst kv) (PyStr (snd kv)))
                      (before ++ (k, field) :: after)%list d)
  = Some (PyStr field).
Proof.
  intros H.
  refine (lookup_fold_last (fun kv => fst kv) (fun kv => PyStr (snd kv))
            before (k, field) after k eq_refl _ d).
  intros [a b] Hab. exact (H a b Hab).
Qed.

(** X15.  How [from_csv] finds a field: [row.get(key, '')] is the field under the
    last column of the header named [key]; [None] when the row is too short
    to have a field there; the empty text when no column has the name. *)
Theorem from_csv_column (header row : list string) (key : string) :
  (~ In key header -> dict_get (row_dict header row) key (PyStr "") = PyStr "")
  /\ (forall before after,
        header = (before ++ key :: after)%list -> ~ In key after ->
        dict_get (row_dict header row) key (PyStr "") =
        match nth_error row (List.length before) with
        | Some field => PyStr field
        | None => PyNone
        end).
Proof.
  split.
  - intros Habsent. unfold dict_get, row_dict, zip_dict.
    rewrite lookup_none_other
      by (intros a Ha ->; apply Habsent; eapply In_skipn, Ha).
    rewrite lookup_zip_other
      by (intros a b Hab ->; apply Habsent; eapply in_combine_l, Hab).
    reflexivity.
  - intros before after -> Hlast. unfold dict_get, row_dict.
    destruct (nth_error row (List.length before)) as [field|] eqn:Hnth.
    + destruct (nth_error_split _ _ Hnth) as (r1 & r2 & -> & Hlen).
      rewrite lookup_none_other.
      * unfold zip_dict. rewrite combine_app by (now symmetry).
        cbn [combine]. rewrite lookup_zip_last; [reflexivity|].
        intros a b Hab ->. apply Hlast. eapply in_combine_l, Hab.
      * intros a Ha ->. apply Hlast.
        rewrite skipn_app, skipn_all2 in Ha
          by (rewrite length_app; cbn [List.length]; lia).
        cbn [app] in Ha.
        replace (List.length (r1 ++ field :: r2) - List.length before)
          with (S (List.length r2)) in Ha
          by (rewrite length_app; cbn [List.length]; lia).
        cbn [skipn] in Ha. eapply In_skipn, Ha.
    + apply nth_error_None in Hnth.
      rewrite skipn_app.
      replace (List.length row - List.length before) with 0 by lia.
      cbn [skipn]. now rewrite lookup_none_last.
Qed.

(** ** A CSV input converts without failure *)





(** ** What [to_google_format] never leaves empty *)

Lemma format_uri_loop_https (uris : list string) (url : string) :
  format_uri_loop uris = Some (Ok url) -> exists rest, url = "https://" ++ rest.
Proof.
  induction uris as [|uri uris IH]; cbn [format_uri_loop]; [discriminate|].
  destruct (startswith uri "http://" || startswith uri "https://").
  - destruct (urlparse_netloc uri) as [netloc|e]; cbn [bind];
      [intros [= <-]; eexists; reflexivity | discriminate].
  - destruct (contains "." uri && negb (startswith uri "androidapp://"));
      [intros [= <-]; eexists; reflexivity | exact IH].
Qed.

Lemma replace_nonempty (s old new : string) :
  s <> "" -> new <> "" -> replace s old new <> "".
Proof.
  intros Hs Hnew.
  destruct s as [|c s]; [congruence|]. destruct new as [|n new]; [congruence|].
  destruct old as [|a old]; unfold replace; cbn [intersperse replace_from append].
  - discriminate.
  - destruct (startswith (String c s) (String a old)); cbn [append]; discriminate.
Qed.

(** X17.  The row [to_google_format] returns has no empty URL, username or
    password, whatever the entry holds: Google's importer gets a value in
    each of the three. *)
Theorem to_google_format_fields_filled (self : PasswordEntry) (c : option Z)
  (row : list (string * value)) :
  to_google_format self c = Ok row ->
  (exists url, lookup "url" row = Some (PyStr url) /\ url <> "")
  /\ truthy (dict_get row "username" PyNone) = true
  /\ truthy (dict_get row "password" PyNone) = true.
Proof.
  unfold to_google_format.
  destruct (format_uri self) as [url|e] eqn:Hurl; [|discriminate].
  cbn [bind]. intros [= <-]. split; [|split].
  - exists url. split; [reflexivity|].
    unfold format_uri in Hurl.
    destruct (truthy (login_uri self)) eqn:Ht; cbn [negb] in Hurl.
    + destruct (login_uri self) as [| | |s| |]; try discriminate.
      destruct (format_uri_loop (split "," s)) as [r|] eqn:Hloop.
      * subst r. destruct (format_uri_loop_https _ _ Hloop) as [rest ->].
        discriminate.
      * injection Hurl as <-.
        apply (replace_nonempty s "androidapp://" "android://@");
          [now apply truthy_str | discriminate].
    + injection Hurl as <-. discriminate.
  - change (truthy (if truthy (login_username self) then login_username self
                    else PyStr (str (name self) ++ " - row:"
                                  ++ str (counter_value c))) = true).
    destruct (truthy (login_username self)) eqn:E; [exact E|].
    apply truthy_str. destruct (str (name self)); discriminate.
  - change (truthy (if truthy (login_password self) then login_password self
                    else PyStr "secure_note_password") = true).
    destruct (truthy (login_password self)) eqn:E; [exact E | reflexivity].
Qed.

(** ** The usernames of secure notes *)

Lemma contains_cons_other (c x : ascii) (s : string) :
  c <> x -> contains (String c "") (String x s) = contains (String c "") s.
Proof.
  intros H. apply Ascii.eqb_neq in H.
  cbn [contains startswith]. now rewrite H.
Qed.

Lemma contains_sep_after (sep : ascii) (a d : string) :
  contains (String sep "") (a ++ String sep d) = true.
Proof.
  rewrite contains_char_app. cbn [contains startswith].
  rewrite Ascii.eqb_refl. cbn [andb orb]. apply orb_true_r.
Qed.

(** Two texts that end with the same separator followed by a text without
    it have the same end. *)
Lemma append_last_sep (sep : ascii) (a b d1 d2 : string) :
  contains (String sep "") d1 = false -> contains (String sep "") d2 = false ->
  a ++ String sep d1 = b ++ String sep d2 -> d1 = d2.
Proof.
  intros H1 H2. revert b.
  induction a as [|c a IH]; intros [|c' b] H; cbn [append] in H.
  - now injection H.
  - injection H as _ H. subst d1. now rewrite contains_sep_after in H1.
  - injection H as _ H. subst d2. now rewrite contains_sep_after in H2.
  - injection H as _ H. exact (IH b H).
Qed.

Lemma string_of_uint_no_colon (d : Decimal.uint) :
  contains ":" (NilEmpty.string_of_uint d) = false.
Proof.
  induction d; cbn [NilEmpty.string_of_uint]; [reflexivity|..];
    now rewrite contains_cons_other.
Qed.

Lemma str_of_int_no_colon (n : Z) : contains ":" (str_of_int n) = false.
Proof.
  unfold str_of_int, NilZero.string_of_int, NilZero.string_of_uint.
  destruct (Z.to_int n) as [d|d].
  - destruct d; try reflexivity; apply string_of_uint_no_colon.
  - rewrite contains_cons_other by discriminate.
    destruct d; try reflexivity; apply string_of_uint_no_colon.
Qed.

(** Different numbers are written differently. *)
Lemma str_of_int_inj (j k : Z) : str_of_int j = str_of_int k -> j = k.
Proof.
  unfold str_of_int. intros H.
  assert (Hn : forall z, Z.to_int z <> Decimal.Pos Decimal.Nil
                         /\ Z.to_int z <> Decimal.Neg Decimal.Nil).
  { intros [|p|p]; cbn [Z.to_int]; split; intros E; try discriminate E;
      injection E as E; now apply DecimalPos.Unsigned.to_uint_nonnil in E. }
  destruct (Hn j) as [Hj1 Hj2]. destruct (Hn k) as [Hk1 Hk2].
  apply (f_equal NilZero.int_of_string) in H.
  rewrite !NilZero.isi in H by assumption.
  injection H as H. apply (f_equal Z.of_int) in H.
  now rewrite !DecimalZ.of_to in H.
Qed.

Lemma secure_notes_app (before rest : list PasswordEntry) :
  secure_notes (before ++ rest) = (secure_notes before + secure_notes rest)%Z.
Proof.
  induction before as [|entry before IH]; cbn [app secure_notes]; [reflexivity|].
  rewrite IH. lia.
Qed.

Lemma secure_notes_nonneg (entries : list PasswordEntry) :
  (0 <= secure_notes entries)%Z.
Proof.
  induction entries as [|entry entries IH]; cbn [secure_notes]; [lia|].
  destruct (is_secure_note entry); lia.
Qed.

(** X18.  The comment in the writer promises a unique username for secure notes.
    It holds among them: the lines of two secure notes of one run carry the
    counter values of their places, and the usernames made with them differ,
    even when the two notes have the same name or names that end like a
    username of this form. *)
Theorem secure_note_usernames_unique (file_path : string)
  (before : list PasswordEntry) (first : PasswordEntry)
  (between : list PasswordEntry) (second : PasswordEntry)
  (after : list PasswordEntry) (c : Z) :
  is_secure_note first = true -> is_secure_note second = true ->
  let entries := (before ++ first :: between ++ second :: after)%list in
  let j := (c + secure_notes before)%Z in
  let k := (c + secure_notes (before ++ first :: between))%Z in
  (forall ev,
      nth_error (fst (write_entries file_path entries c)) (List.length before)
      = Some ev ->
      ev = Write file_path (secure_note_line first j))
  /\ (forall ev,
        nth_error (fst (write_entries file_path entries c))
                  (List.length (before ++ first :: between))
        = Some ev ->
        ev = Write file_path (secure_note_line second k))
  /\ (forall entry n,
        secure_note_line entry n =
        writerow [name entry;
                  PyStr "https://mybitwardensecurenotesdonotdelete.com";
                  PyStr (secure_note_username entry n);
                  (if truthy (login_password entry) then login_password entry
                   else PyStr "secure_note_password");
                  notes entry])
  /\ secure_note_username first j <> secure_note_username second k.
Proof.
  intros Hfirst Hsecond entries j k. split; [|split; [|split]].
  - intros ev. apply write_entries_nth. exact Hfirst.
  - intros ev. unfold entries.
    replace (before ++ first :: between ++ second :: after)%list
      with ((before ++ first :: between) ++ second :: after)%list
      by (now rewrite <- app_assoc).
    apply write_entries_nth. exact Hsecond.
  - reflexivity.
  - intros Heq.
    assert (Hshape : forall entry n,
               secure_note_username entry n
               = (str (name entry) ++ " - row") ++ String ":" (str_of_int n)).
    { intros entry n. unfold secure_note_username.
      rewrite append_append. reflexivity. }
    rewrite !Hshape in Heq.
    apply append_last_sep in Heq; try apply str_of_int_no_colon.
    apply str_of_int_inj in Heq. unfold j, k in Heq.
    rewrite secure_notes_app in Heq. cbn [secure_notes] in Heq.
    rewrite Hfirst in Heq.
    pose proof (secure_notes_nonneg between). lia.
Qed.

End Script.

(* ================================================================== *)
(** * The model at work *)
(* ================================================================== *)

(** The examples of the specification. *)
Example format_uri_bare_domain :
  format_uri Urllib.netloc (Sample.login_entry "example.com" "jane")
  = Ok "https://example.com".
Proof. reflexivity. Qed.

Example format_uri_android_only :
  format_uri Urllib.netloc (Sample.login_entry "androidapp://com.example" "jane")
  = Ok "android://@com.example".
Proof. reflexivity. Qed.

Example format_uri_port_kept :
  format_uri Urllib.netloc
    (Sample.login_entry "androidapp://com.example,http://example.com:8080/a?b#c" "jane")
  = Ok "https://example.com:8080".
Proof. reflexivity. Qed.

(** A text [urlparse] rejects: the exception goes through [format_uri]. *)
Example format_uri_unmatched_bracket :
  format_uri Urllib.netloc (Sample.login_entry "https://[" "jane")
  = Raise (ValueError "Invalid IPv6 URL").
Proof. reflexivity. Qed.

(** The two items of [vault.json], read and written. *)
Example json_run :
  main Urllib.netloc Posix.path_suffix Posix.path_str Sample.files
    {| input := "vault.json"; output := "out.csv" |}
  = ([Open "vault.json" Reading;
      Open "out.csv" Writing;
      Write "out.csv" header_line;
      Write "out.csv"
        ("Passport,https://mybitwardensecurenotesdonotdelete.com,Passport - row:1,secure_note_password,"
         ++ String quote
              ("Name: Jane Doe" ++ String LF
               ("Phone: " ++ String LF
                ("Email: " ++ String LF
                 ("Address: " ++ String LF
                  ("Company: " ++ String LF
                   ("Notes: " ++ String quote lineterminator)))))));
      Write "out.csv"
        ("Wifi,https://mybitwardensecurenotesdonotdelete.com,Wifi - row:2,secure_note_password,guest network"
         ++ lineterminator);
      Print "Google CSV file saved as out.csv."],
     Ok tt).
Proof. reflexivity. Qed.

(** A JSON [null] is not an empty text: it is formatted as [None]. *)
Example identity_null_field :
  entry_of_item
    (PyDict [("type", PyInt 4);
             ("identity", PyDict [("firstName", PyStr "Jane");
                                  ("lastName", PyNone)])])
  = Ok {| name := PyStr ""; login_uri := PyStr ""; login_username := PyStr "";
          login_password := PyStr "";
          notes := PyStr ("Name: Jane None" ++ String LF
                          ("Phone: " ++ String LF
                           ("Email: " ++ String LF
                            ("Address: " ++ String LF
                             ("Company: " ++ String LF "Notes: "))))) |}.
Proof. reflexivity. Qed.

Lemma format_uri_first_match_witness :
  format_uri Urllib.netloc Sample.mail = Ok "https://example.com".
Proof.
  assert (Hne : "https://example.com/login,androidapp://com.example" <> "")
    by discriminate.
  destruct (format_uri_first_match Urllib.netloc Sample.mail _ eq_refl Hne)
    as [Hscan _].
  destruct (Hscan [] "https://example.com/login" ["androidapp://com.example"]
              eq_refl (fun x (H : In x []) => match H with end))
    as [Hscheme _].
  apply Hscheme.
  - right. now exists "example.com/login".
  - reflexivity.
Defined.

Lemma format_uri_empty_witness :
  format_uri Urllib.netloc (Sample.note_entry "Foo")
  = Ok "https://mybitwardensecurenotesdonotdelete.com".
Proof.
  exact (format_uri_empty Urllib.netloc (Sample.note_entry "Foo") eq_refl).
Defined.

Lemma format_uri_leading_space_witness :
  ~ scheme_rule " https://bar.com"
  /\ format_uri Urllib.netloc (Sample.login_entry "foo, https://bar.com" "jane")
     = Ok "https://https://bar.com".
Proof.
  destruct (format_uri_leading_space Urllib.netloc) as [_ [_ H]].
  apply (H (Sample.login_entry "foo, https://bar.com" "jane")
           "foo, https://bar.com" ["foo"] " "%char "https://bar.com" []).
  - reflexivity.
  - reflexivity.
  - intros x [<- | []]. split.
    + intros Hs. apply scheme_rule_iff in Hs. discriminate Hs.
    + intros Hd. apply dot_rule_iff in Hd. discriminate Hd.
  - reflexivity.
  - reflexivity.
Defined.

(** C3, as the claim has it, fails on this entry: its [login_uri] is not
    empty and its [login_username] is; mapped without a counter it gets a
    synthesised username all the same, and that username is not the name
    alone but the name followed by [ - row:None]. *)
Lemma to_google_format_username_counterexample :
  login_uri Sample.no_username = PyStr "example.com"
  /\ login_username Sample.no_username = PyStr ""
  /\ name Sample.no_username = PyStr "Foo"
  /\ to_google_format Urllib.netloc Sample.no_username None =
     Ok [("name", PyStr "Foo");
         ("url", PyStr "https://example.com");
         ("username", PyStr "Foo - row:None");
         ("password", PyStr "s3cret");
         ("note", PyStr "")]
  /\ PyStr "Foo - row:None" <> PyStr "Foo"
  /\ PyStr "Foo - row:None" <> login_username Sample.no_username.
Proof.
  repeat split; try reflexivity; discriminate.
Qed.

Lemma to_google_format_username_witness :
  exists row,
    to_google_format Urllib.netloc Sample.no_username None = Ok row
    /\ dict_get row "username" PyNone = PyStr "Foo - row:None".
Proof.
  destruct (to_google_format_username Urllib.netloc Sample.no_username)
    as [Hempty _].
  destruct (Hempty eq_refl "https://example.com" eq_refl)
    as (Hnone & _ & [row Hrow]).
  exists row. split; [exact Hrow | exact (Hnone row Hrow)].
Defined.

Lemma secure_note_counter_witness :
  nth_error
    (fst (to_google_csv Urllib.netloc Sample.files
            [Sample.note_entry "Foo"; Sample.mail; Sample.note_entry "Bar"]
            "out.csv"))
    4
  = Some (Write "out.csv"
            ("Bar,https://mybitwardensecurenotesdonotdelete.com,Bar - row:2,secure_note_password,"
             ++ lineterminator)).
Proof.
  destruct (secure_note_counter Urllib.netloc Sample.files "out.csv")
    as (_ & _ & _ & _ & Hkth).
  destruct (Hkth [Sample.note_entry "Foo"; Sample.mail] (Sample.note_entry "Bar")
              [] eq_refl eq_refl) as (_ & _ & Hnth).
  apply Hnth. repeat constructor; eexists; reflexivity.
Defined.

(** A run that does not return: [urlparse] rejects the URI of the second of
    three entries, the exception ends the run there, and what is left of the
    file is the header and the line of the first entry. *)
Example to_google_csv_aborted_run :
  let entries := [Sample.note_entry "Foo";
                  Sample.login_entry "https://[" "jane";
                  Sample.note_entry "Bar"] in
  let run := to_google_csv Urllib.netloc Sample.files entries "out.csv" in
  snd run = Raise (ValueError "Invalid IPv6 URL")
  /\ file_text "out.csv" (fst run)
     = Some (header_line
             ++ "Foo,https://mybitwardensecurenotesdonotdelete.com,Foo - row:1,secure_note_password,"
             ++ lineterminator).
Proof.
  repeat split.
Qed.

Lemma to_google_csv_file_witness :
  let entries := [Sample.note_entry "Foo"; Sample.mail; Sample.note_entry "Bar"] in
  let run := to_google_csv Urllib.netloc Sample.files entries "out.csv" in
  snd run = Ok tt
  /\ exists lines,
       fst run = Open "out.csv" Writing :: Write "out.csv" header_line
                   :: map (Write "out.csv") lines
       /\ file_text "out.csv" (fst run) = Some (header_line ++ text_of lines)
       /\ List.length lines = 3%nat.
Proof.
  intros entries run. split; [reflexivity|].
  destruct (to_google_csv_file Urllib.netloc Sample.files entries "out.csv"
              eq_refl) as (lines & Htrace & _ & Htext & Hlength & _).
  exists lines. split; [exact Htrace|]. split; [exact Htext | exact Hlength].
Defined.


Lemma non_login_item_is_secure_note_witness :
  exists entry,
    entry_of_item (PyDict Sample.note_item) = Ok entry
    /\ is_secure_note entry = true
    /\ to_google_format Urllib.netloc entry (Some 3%Z) =
       Ok [("name", PyStr "Wifi");
           ("url", PyStr "https://mybitwardensecurenotesdonotdelete.com");
           ("username", PyStr "Wifi - row:3");
           ("password", PyStr "secure_note_password");
           ("note", PyStr "guest network")].
Proof.
  destruct (non_login_item_is_secure_note Urllib.netloc Sample.note_item eq_refl)
    as [Hshape Hgives].
  destruct Hgives as [entry Hentry]; [discriminate|].
  exists entry. split; [exact Hentry|].
  destruct (Hshape entry Hentry) as (_ & _ & _ & _ & Hsecure & Hrow & _).
  split; [exact Hsecure|].
  rewrite (Hrow 3%Z).
  injection Hentry as <-. reflexivity.
Defined.

Lemma csv_secure_note_round_trip_witness :
  main Urllib.netloc Posix.path_suffix Posix.path_str Sample.files {| input := "vault.csv"; output := "google_passwords.csv" |}
  = ([Open "vault.csv" Reading;
      Open "google_passwords.csv" Writing;
      Write "google_passwords.csv" header_line;
      Write "google_passwords.csv"
        ("Foo,https://mybitwardensecurenotesdonotdelete.com,Foo - row:1,secure_note_password,"
         ++ lineterminator);
      Print "Google CSV file saved as google_passwords.csv."],
     Ok tt).
Proof.
  refine (proj1 (proj2
    (csv_secure_note_round_trip Urllib.netloc Posix.path_suffix Posix.path_str
       Sample.files {| input := "vault.csv"; output := "google_passwords.csv" |}
       Sample.csv_header Sample.csv_row
       eq_refl eq_refl eq_refl eq_refl _ _ _ _ eq_refl)));
    left; reflexivity.
Defined.

Lemma main_extension_witness :
  main Urllib.netloc Posix.path_suffix Posix.path_str Sample.files {| input := "notes.TXT"; output := "out.csv" |}
  = ([], Raise (ValueError
                  "Unsupported file format. Please provide a CSV or JSON file."))
  /\ main Urllib.netloc Posix.path_suffix Posix.path_str Sample.files {| input := "VAULT.JSON"; output := "out.csv" |}
     = (entries <~ from_json Sample.files "VAULT.JSON" ;;
        _ <~ to_google_csv Urllib.netloc Sample.files entries "out.csv" ;;
        emit (Print "Google CSV file saved as out.csv.")).
Proof.
  split.
  - destruct (main_extension Urllib.netloc Posix.path_suffix Posix.path_str
                Sample.files {| input := "notes.TXT"; output := "out.csv" |})
      as [Hother _].
    apply Hother; discriminate.
  - destruct (main_extension Urllib.netloc Posix.path_suffix Posix.path_str
                Sample.files {| input := "VAULT.JSON"; output := "out.csv" |})
      as (_ & _ & Hjson).
    exact (Hjson eq_refl).
Defined.

(** ** The further properties on sample data *)

Lemma login_item_entry_witness :
  entry_of_item (PyDict Sample.login_item) =
  Ok {| name := PyStr "Mail"; login_uri := PyStr "https://example.com/login";
        login_username := PyStr "jane"; login_password := PyStr "s3cret";
        notes := PyStr "" |}.
Proof.
  exact (login_item_entry Sample.login_item
           [("uris", PyList [PyDict [("uri", PyStr "https://example.com/login")];
                             PyDict [("uri", PyStr "https://mail.example.com")]]);
            ("username", PyStr "jane");
            ("password", PyStr "s3cret")]
           [("uri", PyStr "https://example.com/login")]
           [PyDict [("uri", PyStr "https://mail.example.com")]]
           (PyStr "https://example.com/login")
           eq_refl eq_refl eq_refl eq_refl).
Defined.

Lemma login_item_without_uris_witness :
  (exists entry,
      entry_of_item (PyDict [("type", PyInt 1); ("name", PyStr "Router");
                             ("login", PyDict [("username", PyStr "admin");
                                               ("password", PyStr "hunter2");
                                               ("uris", PyNone)])])
      = Ok entry
      /\ entry = {| name := PyStr "Router"; login_uri := PyStr "";
                    login_username := PyStr "admin";
                    login_password := PyStr "hunter2"; notes := PyStr "" |}
      /\ format_uri Urllib.netloc entry
         = Ok "https://mybitwardensecurenotesdonotdelete.com")
  /\ (exists entry,
         entry_of_item (PyDict [("type", PyInt 1); ("name", PyStr "Card")])
         = Ok entry
         /\ entry = {| name := PyStr "Card"; login_uri := PyStr "";
                       login_username := PyStr ""; login_password := PyStr "";
                       notes := PyStr "" |}
         /\ is_secure_note entry = true).
Proof.
  split.
  - exact (proj1 (login_item_without_uris Urllib.netloc
                    [("type", PyInt 1); ("name", PyStr "Router");
                     ("login", PyDict [("username", PyStr "admin");
                                       ("password", PyStr "hunter2");
                                       ("uris", PyNone)])]
                    eq_refl)
             [("username", PyStr "admin"); ("password", PyStr "hunter2");
              ("uris", PyNone)] eq_refl eq_refl).
  - exact (proj2 (login_item_without_uris Urllib.netloc
                    [("type", PyInt 1); ("name", PyStr "Card")] eq_refl)
             eq_refl).
Defined.

Lemma login_item_errors_witness :
  entry_of_item (PyDict [("type", PyInt 1); ("login", PyNone)])
  = Raise AttributeError
  /\ entry_of_item
       (PyDict [("type", PyInt 1);
                ("login", PyDict [("uris", PyList [PyDict [("match", PyNone)]])])])
     = Raise KeyError.
Proof.
  split.
  - apply (proj1 (login_item_errors [("type", PyInt 1); ("login", PyNone)]
                    eq_refl)).
    intros d E. discriminate E.
  - destruct (login_item_errors
                [("type", PyInt 1);
                 ("login", PyDict [("uris", PyList [PyDict [("match", PyNone)]])])]
                eq_refl) as [_ H].
    destruct (H [("uris", PyList [PyDict [("match", PyNone)]])]
                (PyDict [("match", PyNone)]) [] eq_refl eq_refl) as [_ Hkey].
    exact (Hkey [("match", PyNone)] eq_refl eq_refl).
Defined.

Lemma entries_of_items_each_witness :
  entries_of_items [PyDict Sample.identity_item; PyStr "oops";
                    PyDict Sample.note_item]
  = Raise AttributeError.
Proof.
  apply (proj2 (entries_of_items_each
                  [PyDict Sample.identity_item; PyStr "oops";
                   PyDict Sample.note_item])
           [PyDict Sample.identity_item] (PyStr "oops")
           [PyDict Sample.note_item] AttributeError eq_refl).
  - constructor; [eexists; reflexivity | constructor].
  - reflexivity.
Defined.

Lemma from_json_document_witness :
  from_json Sample.files "broken.json"
  = ([Open "broken.json" Reading], Raise JSONDecodeError).
Proof.
  destruct (from_json_document Sample.files "broken.json") as [_ H].
  destruct (H eq_refl) as [Hraise _].
  exact (Hraise JSONDecodeError eq_refl).
Defined.

Lemma format_uri_not_text_witness :
  let entry := {| name := PyStr "Pin"; login_uri := PyInt 1234;
                  login_username := PyStr ""; login_password := PyStr "";
                  notes := PyStr "" |} in
  format_uri Urllib.netloc entry = Raise AttributeError
  /\ to_google_format Urllib.netloc entry None = Raise AttributeError.
Proof.
  intros entry.
  assert (Hshape : forall s, login_uri entry <> PyStr s)
    by (intros s E; discriminate E).
  destruct (format_uri_not_text Urllib.netloc entry Hshape) as [_ H].
  destruct (H eq_refl) as [Hurl Hrow].
  split; [exact Hurl | exact (Hrow None)].
Defined.

Lemma format_uri_android_package_witness :
  format_uri Urllib.netloc (Sample.login_entry "androidapp://com.example" "jane")
  = Ok "android://@com.example".
Proof.
  exact (proj2 (format_uri_android_package Urllib.netloc
                  (Sample.login_entry "androidapp://com.example" "jane")
                  "com.example" eq_refl eq_refl)
           eq_refl).
Defined.

Lemma format_uri_android_and_domain_witness :
  format_uri Urllib.netloc
    (Sample.login_entry "androidapp://com.example,example.com" "jane")
  = Ok "https://example.com".
Proof.
  apply (format_uri_android_and_domain Urllib.netloc
           (Sample.login_entry "androidapp://com.example,example.com" "jane")
           "com.example" "example.com" eq_refl eq_refl).
  - apply dot_rule_iff. reflexivity.
  - intros H. apply scheme_rule_iff in H. discriminate H.
  - left. reflexivity.
Defined.

Lemma username_without_uri_witness :
  to_google_format Urllib.netloc (Sample.login_entry "" "admin") (Some 5%Z)
  = Ok [("name", PyStr "Foo");
        ("url", PyStr "https://mybitwardensecurenotesdonotdelete.com");
        ("username", PyStr "admin");
        ("password", PyStr "s3cret");
        ("note", PyStr "")].
Proof.
  destruct (username_without_uri Urllib.netloc (Sample.login_entry "" "admin")
              eq_refl eq_refl) as (_ & Hrow & _).
  exact (Hrow (Some 5%Z)).
Defined.

Lemma to_google_csv_effects_witness :
  to_google_csv Urllib.netloc Sample.read_only [Sample.mail] "out.csv"
  = ([], Raise OSError).
Proof.
  destruct (to_google_csv_effects Urllib.netloc Sample.read_only [Sample.mail]
              "out.csv") as [H _].
  exact (H OSError eq_refl).
Defined.

Lemma main_stops_at_reader_witness :
  let run := main Urllib.netloc Posix.path_suffix Posix.path_str Sample.files
               {| input := "broken.json"; output := "out.csv" |} in
  snd run = Raise JSONDecodeError
  /\ file_text "out.csv" (fst run) = None.
Proof.
  intros run.
  assert (H : (lower (Posix.path_suffix "broken.json") = ".csv"
               /\ snd (from_csv Sample.files "broken.json") = Raise JSONDecodeError)
              \/ (lower (Posix.path_suffix "broken.json") = ".json"
                  /\ snd (from_json Sample.files "broken.json")
                     = Raise JSONDecodeError))
    by (right; split; reflexivity).
  destruct (main_stops_at_reader Urllib.netloc Posix.path_suffix Posix.path_str
              Sample.files {| input := "broken.json"; output := "out.csv" |}
              JSONDecodeError H) as (Hraise & _ & Hfile).
  split; [exact Hraise | exact (Hfile "out.csv")].
Defined.

Lemma main_announces_success_witness :
  exists before,
    fst (main Urllib.netloc Posix.path_suffix Posix.path_str Sample.files
           {| input := "vault.json"; output := "out.csv" |})
    = (before ++ [Print "Google CSV file saved as out.csv."])%list
    /\ In (Open "out.csv" Writing) before.
Proof.
  destruct (main_announces_success Urllib.netloc Posix.path_suffix
              Posix.path_str Sample.files
              {| input := "vault.json"; output := "out.csv" |}) as [H _].
  exact (H eq_refl).
Defined.

Lemma from_csv_column_witness :
  dict_get (row_dict Sample.csv_header ["Work"; "Foo"]) "name" (PyStr "")
  = PyStr "Foo"
  /\ dict_get (row_dict Sample.csv_header ["Work"; "Foo"]) "notes" (PyStr "")
     = PyNone
  /\ dict_get (row_dict Sample.csv_header ["Work"; "Foo"]) "login_totp" (PyStr "")
     = PyStr "".
Proof.
  split; [|split].
  - apply (proj2 (from_csv_column Sample.csv_header ["Work"; "Foo"] "name")
             ["folder"]
             ["notes"; "login_uri"; "login_username"; "login_password"]
             eq_refl).
    intros [E | [E | [E | [E | []]]]]; discriminate E.
  - apply (proj2 (from_csv_column Sample.csv_header ["Work"; "Foo"] "notes")
             ["folder"; "name"]
             ["login_uri"; "login_username"; "login_password"]
             eq_refl).
    intros [E | [E | [E | []]]]; discriminate E.
  - apply (proj1 (from_csv_column Sample.csv_header ["Work"; "Foo"] "login_totp")).
    intros [E | [E | [E | [E | [E | [E | []]]]]]]; discriminate E.
Defined.


Lemma to_google_format_fields_filled_witness :
  exists url,
    lookup "url"
      [("name", PyStr "Foo");
       ("url", PyStr "https://example.com");
       ("username", PyStr "Foo - row:None");
       ("password", PyStr "s3cret");
       ("note", PyStr "")]
    = Some (PyStr url)
    /\ url <> "".
Proof.
  exact (proj1 (to_google_format_fields_filled Urllib.netloc Sample.no_username
                  None
                  [("name", PyStr "Foo");
                   ("url", PyStr "https://example.com");
                   ("username", PyStr "Foo - row:None");
                   ("password", PyStr "s3cret");
                   ("note", PyStr "")]
                  eq_refl)).
Defined.

Lemma secure_note_usernames_unique_witness :
  secure_note_username (Sample.note_entry "Foo") 1 = "Foo - row:1"
  /\ secure_note_username (Sample.note_entry "Foo") 2 = "Foo - row:2"
  /\ secure_note_username (Sample.note_entry "Foo") 1
     <> secure_note_username (Sample.note_entry "Foo") 2.
Proof.
  destruct (secure_note_usernames_unique Urllib.netloc "out.csv"
              [] (Sample.note_entry "Foo") [Sample.mail]
              (Sample.note_entry "Foo") [] 1 eq_refl eq_refl)
    as (_ & _ & _ & H).
  split; [reflexivity|]. split; [reflexivity | exact H].
Defined.

Lemma from_json_items_not_list_witness :
  let w := {| open_for_reading := fun _ => Ok tt;
              csv_records := fun _ => Raise CsvError;
              json_document := fun _ =>
                Ok (PyDict [("encrypted", PyBool false);
                            ("items", PyDict [("0", PyDict Sample.note_item)])]);
              open_for_writing := fun _ => Ok tt |} in
  from_json w "vault.json" = ([Open "vault.json" Reading], Raise AttributeError).
Proof.
  intros w.
  apply (from_json_items_not_list w "vault.json"
           [("encrypted", PyBool false);
            ("items", PyDict [("0", PyDict Sample.note_item)])]
           (PyDict [("0", PyDict Sample.note_item)])
           eq_refl eq_refl eq_refl).
  left. eexists. reflexivity.
Defined.
